(** * Study Helper Bot (src/main.py): a shallow embedding and its properties

    The bot keeps one process-wide dictionary [user_tasks] from user ids to
    lists of task strings, registers one-shot timer jobs with the
    transport's job queue and answers every command with a text message.
    The handlers are embedded as functions on an explicit [World]: the
    dictionary, the pending jobs, the messages sent so far, the state of
    the random generator and the clock of the job queue. *)

From Stdlib Require Import ZArith NArith Ascii String.
From Stdlib Require Import Decimal DecimalPos DecimalN.
From stdpp Require Import gmap list strings.

Open Scope Z_scope.

(** ** Python strings

    A Python [str] is a sequence of Unicode code points. *)

Abbreviation char := N (only parsing).
Abbreviation pystr := (list N) (only parsing).

(** A literal of the source whose characters are all ASCII. *)
Definition lit (s : string) : pystr :=
  N_of_ascii <$> list_ascii_of_string s.

(** Decimal digit values, [0] to [9]. *)
Variant digit := d0 | d1 | d2 | d3 | d4 | d5 | d6 | d7 | d8 | d9.

(** How the Unicode database classifies a code point: characters of
    numeric type Decimal are accepted by [str.isdigit] and by [int]; those
    of numeric type Digit (superscripts, circled digits) by [str.isdigit]
    only. *)
Variant digit_class :=
  | NotDigit
  | DigitOnly
  | Decimal (d : digit).

Module Py.

(** [Py_UNICODE_ISSPACE]: the characters [str.strip()] removes. *)
Definition isspace (c : char) : bool :=
  ((9 <=? c) && (c <=? 13) || (28 <=? c) && (c <=? 32) ||
   (c =? 0x85) || (c =? 0xA0) || (c =? 0x1680) ||
   (0x2000 <=? c) && (c <=? 0x200A) ||
   (c =? 0x2028) || (c =? 0x2029) || (c =? 0x202F) ||
   (c =? 0x205F) || (c =? 0x3000))%N.

Fixpoint lstrip (s : pystr) : pystr :=
  match s with
  | c :: s' => if isspace c then lstrip s' else s
  | [] => []
  end.

Definition rstrip (s : pystr) : pystr := reverse (lstrip (reverse s)).

(** [s.strip()] *)
Definition strip (s : pystr) : pystr := rstrip (lstrip s).

(** A word of [context.args]: the transport splits the message at
    whitespace, so a word is not empty and holds no whitespace. *)
Definition word (s : pystr) : Prop :=
  s <> [] /\ Forall (fun c => isspace c = false) s.

(** [sep.join(parts)] *)
Fixpoint join (sep : pystr) (parts : list pystr) : pystr :=
  match parts with
  | [] => []
  | [p] => p
  | p :: rest => p ++ sep ++ join sep rest
  end.

Definition ascii_digit (c : char) : digit_class :=
  match c with
  | 48 => Decimal d0 | 49 => Decimal d1 | 50 => Decimal d2
  | 51 => Decimal d3 | 52 => Decimal d4 | 53 => Decimal d5
  | 54 => Decimal d6 | 55 => Decimal d7 | 56 => Decimal d8
  | 57 => Decimal d9
  | _ => NotDigit
  end%N.

Definition push (d : digit) (u : uint) : uint :=
  match d with
  | d0 => D0 u | d1 => D1 u | d2 => D2 u | d3 => D3 u | d4 => D4 u
  | d5 => D5 u | d6 => D6 u | d7 => D7 u | d8 => D8 u | d9 => D9 u
  end.

(** The characters of a decimal numeral, most significant digit first. *)
Fixpoint uint_chars (u : uint) : pystr :=
  match u with
  | Nil => []
  | D0 u => 48%N :: uint_chars u | D1 u => 49%N :: uint_chars u
  | D2 u => 50%N :: uint_chars u | D3 u => 51%N :: uint_chars u
  | D4 u => 52%N :: uint_chars u | D5 u => 53%N :: uint_chars u
  | D6 u => 54%N :: uint_chars u | D7 u => 55%N :: uint_chars u
  | D8 u => 56%N :: uint_chars u | D9 u => 57%N :: uint_chars u
  end.

(** [str(z)], also what an f-string does with an [int]. *)
Definition str (z : Z) : pystr :=
  match z with
  | Z0 => [48%N]
  | Zpos p => uint_chars (Pos.to_uint p)
  | Zneg p => 45%N :: uint_chars (Pos.to_uint p)
  end.

Section Unicode.

(** The digit classification of the code points from 128 on is a table
    of the interpreter's Unicode database; the handlers are embedded
    over any such table. *)
Variable unicode_digit : char -> digit_class.

Definition classify (c : char) : digit_class :=
  if (c <? 128)%N then ascii_digit c else unicode_digit c.

Definition isdigit_char (c : char) : bool :=
  match classify c with
  | NotDigit => false
  | _ => true
  end.

(** [s.isdigit()]: at least one character, and all of them digits. *)
Definition isdigit (s : pystr) : bool :=
  match s with
  | [] => false
  | _ => forallb isdigit_char s
  end.

(** The digits of an integer literal: decimal characters, with single
    underscores allowed between two of them. [after_digit] tells whether
    the previous character was a digit. *)
Fixpoint numeral (after_digit : bool) (s : pystr) : option uint :=
  match s with
  | [] => if after_digit then Some Nil else None
  | c :: s' =>
      if (c =? 95)%N then
        if after_digit then numeral false s' else None
      else
        match classify c with
        | Decimal d => push d <$> numeral true s'
        | _ => None
        end
  end.

(** The whitespace [int] skips around a number: that of [str.strip]
    without the four separators from U+001C to U+001F. *)
Definition int_space (c : char) : bool :=
  isspace c && negb ((28 <=? c) && (c <=? 31))%N.

Fixpoint int_lstrip (s : pystr) : pystr :=
  match s with
  | c :: s' => if int_space c then int_lstrip s' else s
  | [] => []
  end.

Definition int_strip (s : pystr) : pystr :=
  reverse (int_lstrip (reverse (int_lstrip s))).

(** [int(s)] in base 10; [None] stands for [ValueError]. The limit of the
    interpreter on the number of digits is above the length of a message
    of the transport and is left out. *)
Definition int (s : pystr) : option Z :=
  match int_strip s with
  | [] => None
  | c :: body =>
      if (c =? 45)%N then
        (fun u => - Z.of_N (N.of_uint u)) <$> numeral false body
      else if (c =? 43)%N then
        (fun u => Z.of_N (N.of_uint u)) <$> numeral false body
      else
        (fun u => Z.of_N (N.of_uint u)) <$> numeral false (c :: body)
  end.

End Unicode.

End Py.

(** ** The transport: updates, messages, jobs *)

(** What a handler reads from the [Update]: [update.effective_user.id] and
    [update.effective_chat.id]. *)
Record Update := {
  effective_user_id : Z;
  effective_chat_id : Z;
}.

(** What a command handler reads from its context: [context.args], the
    words after the command. *)
Record Context := {
  args : list pystr;
}.

(** A message handed to the transport: [reply_text] and [send_message]
    with their optional [parse_mode]. *)
Record Message := {
  msg_chat_id : Z;
  msg_text : pystr;
  msg_parse_mode : option pystr;
}.

(** The callbacks the bot registers with the job queue. *)
Variant Callback := AlarmCallback.

(** A job of [job_queue.run_once(callback, when, chat_id=, name=, data=)];
    [data] is a dictionary with string keys. *)
Record Job := {
  job_callback : Callback;
  job_when : Z;
  job_chat_id : Z;
  job_name : pystr;
  job_data : gmap pystr pystr;
}.

(** The state the handlers act on: the module-level dictionary
    [user_tasks], the jobs waiting in the job queue, the messages sent (the
    oldest first), the raw draws the random generator will produce, and
    what the clock of the job queue will show at its next readings, in
    whole seconds since the first instant of the calendar of [datetime]
    (0001-01-01 00:00:00). *)
Record World := {
  user_tasks : gmap Z (list pystr);
  job_queue : list Job;
  sent : list Message;
  random_state : nat -> nat;
  clock : nat -> N;
}.

Definition set_user_tasks (t : gmap Z (list pystr)) (w : World) : World :=
  {| user_tasks := t; job_queue := job_queue w; sent := sent w;
     random_state := random_state w; clock := clock w |}.

(** [bot.send_message(chat_id, text, parse_mode)] *)
Definition send_message (chat_id : Z) (text : pystr)
    (parse_mode : option pystr) (w : World) : World :=
  {| user_tasks := user_tasks w; job_queue := job_queue w;
     sent := sent w ++ [{| msg_chat_id := chat_id; msg_text := text;
                           msg_parse_mode := parse_mode |}];
     random_state := random_state w; clock := clock w |}.

(** [update.message.reply_text(text, parse_mode)]: a message to the chat
    the update came from. *)
Definition reply_text (update : Update) (text : pystr)
    (parse_mode : option pystr) (w : World) : World :=
  send_message (effective_chat_id update) text parse_mode w.

(** How a call ends: it returns, or it raises an exception that nothing
    in the handler catches; [w] is the world it leaves. *)
Variant Outcome :=
  | Returns (w : World)
  | Raises (w : World).

(** The world a call leaves, however it ends. *)
Definition after (o : Outcome) : World :=
  match o with
  | Returns w | Raises w => w
  end.

(** The last whole second of the calendar of [datetime], counted from the
    first: 9999-12-31 23:59:59. *)
Definition last_second : Z := 315537897599.

(** The world once the clock has been read. *)
Definition tick (w : World) : World :=
  {| user_tasks := user_tasks w; job_queue := job_queue w; sent := sent w;
     random_state := random_state w; clock := fun i => clock w (S i) |}.

(** The world with one more pending job. *)
Definition enqueue (job : Job) (w : World) : World :=
  {| user_tasks := user_tasks w; job_queue := job_queue w ++ [job];
     sent := sent w; random_state := random_state w; clock := clock w |}.

(** [job_queue.run_once]: the date of the job is the reading of the clock
    plus [when] seconds, and that sum raises [OverflowError] when the date
    is outside the calendar; otherwise the job is pending. *)
Definition run_once (callback : Callback) (when chat_id : Z) (name : pystr)
    (data : gmap pystr pystr) (w : World) : Outcome :=
  let date := Z.of_N (clock w 0) + when in
  if (0 <=? date) && (date <=? last_second) then
    Returns (enqueue {| job_callback := callback;
                        job_when := when;
                        job_chat_id := chat_id;
                        job_name := name;
                        job_data := data |} (tick w))
  else Raises (tick w).

(** [random.choice(seq)]: the element at an index below [len(seq)] drawn
    from the generator; [None] stands for the [IndexError] on an empty
    sequence. *)
Definition choice {A} (seq : list A) (w : World) : option A * World :=
  (seq !! (random_state w 0 `mod` length seq)%nat,
   {| user_tasks := user_tasks w; job_queue := job_queue w; sent := sent w;
      random_state := fun i => random_state w (S i); clock := clock w |}).

Definition Markdown : option pystr := Some (lit "Markdown").

(** ** The handlers of src/main.py *)

(** The list of [get_motivational_quote]. *)
Definition quotes : list pystr := [
  lit "The mind is not a vessel to be filled, but a fire to be kindled. - Plutarch";
  lit "The beautiful thing about learning is that no one can take it away from you. - B.B. King";
  lit "The only way to do great work is to love what you do. - Steve Jobs";
  lit "Strive for progress, not perfection.";
  lit "Today's actions are tomorrow's results."
].

(** [get_motivational_quote()] *)
Definition get_motivational_quote (w : World) : option pystr * World :=
  choice quotes w.

(** [quote_command]: the quote between the heading and the closing
    underscore; nothing is sent when [random.choice] raises. *)
Definition quote_command (update : Update) (context : Context) (w : World)
    : option World :=
  match get_motivational_quote w with
  | (Some quote, w') =>
      Some (reply_text update
              ([0x1F4A1%N] ++ lit " **Motivation Boost:**" ++ [10%N; 10%N] ++
               lit "_" ++ quote ++ lit "_")
              Markdown w')
  | (None, _) => None
  end.

(** The key of the job's [data] dictionary. *)
Definition type_key : pystr := lit "type".

(** [alarm_callback], run on [context.job]; [None] stands for the
    [KeyError] of [job.data['type']]. *)
Definition alarm_callback (job : Job) (w : World) : option World :=
  match job_data job !! type_key with
  | Some type =>
      Some (send_message (job_chat_id job)
              (lit "**DING DING!** Your " ++ type ++
               lit " timer is finished! Time for a well-deserved break or move on to the next task.")
              Markdown w)
  | None => None
  end.

(** The job queue runs the pending job at position [i] once: it leaves the
    queue and its callback is called. *)
Definition fire (i : nat) (w : World) : option World :=
  match job_queue w !! i with
  | Some job =>
      match job_callback job with
      | AlarmCallback =>
          alarm_callback job
            {| user_tasks := user_tasks w;
               job_queue := delete i (job_queue w);
               sent := sent w; random_state := random_state w;
               clock := clock w |}
      end
  | None => None
  end.

(** Line 88: the delay in seconds for a number of minutes. *)
Definition duration_seconds (duration_minutes : Z) : Z :=
  if duration_minutes =? 25 then 10 else duration_minutes * 60.

(** The label stored in the job: [f'{duration_minutes}-minute study']. *)
Definition study_label (duration_minutes : Z) : pystr :=
  Py.str duration_minutes ++ lit "-minute study".

Definition timer_set_text (duration_minutes : Z) : pystr :=
  [0x2705%N] ++ lit " Timer set! You are now focusing for " ++
  Py.str duration_minutes ++
  lit " minutes. I'll notify you when time's up!".

Definition minimum_text : pystr :=
  lit "The minimum timer duration is 5 seconds.".

Definition pomodoro_usage_text : pystr :=
  lit "Usage: /pomodoro [minutes] or just /pomodoro (for 25 minutes).".

Definition add_usage_text : pystr :=
  lit "Please provide the task description after the command, e.g., `/tasks_add Read Chapter 3`".

Definition task_added_text (task_text : pystr) (count : Z) : pystr :=
  [0x1F4DD%N] ++ lit " Task added: **" ++ task_text ++ lit "** (Task #" ++
  Py.str count ++ lit ")".

Definition list_empty_text : pystr :=
  [0x1F389%N] ++
  lit " Your to-do list is empty! Ready to add some new study goals?".

Definition list_header : pystr :=
  [0x1F4DA%N] ++ lit " **Your Current Study Tasks:**" ++ [10%N; 10%N].

Definition done_usage_text : pystr :=
  lit "Usage: /tasks_done [number of task to complete]. Use /tasks_list to see numbers.".

Definition done_empty_text : pystr :=
  lit "Your list is empty, nothing to mark as done!".

Definition completed_text (completed_task : pystr) : pystr :=
  [0x2705%N] ++ lit " Great job! You completed: **" ++ completed_task ++
  lit "**".

Definition done_missing_text : pystr :=
  lit "That task number doesn't exist. Check /tasks_list for current numbers.".

Definition done_error_text : pystr :=
  lit "An error occurred. Make sure you entered a valid number.".

Section Handlers.

Variable unicode_digit : char -> digit_class.

(** Lines 81-86: the minutes asked for; [None] stands for the
    [ValueError] of [int]. *)
Definition duration_minutes (user_input : list pystr) : option Z :=
  match user_input with
  | a :: _ =>
    if Py.isdigit unicode_digit a then Py.int unicode_digit a else Some 25
  | [] => Some 25
  end.

(** [pomodoro_command]; the [OverflowError] of [run_once] is none of the
    exceptions of its [except] clause and leaves the handler. *)
Definition pomodoro_command (update : Update) (context : Context)
    (w : World) : Outcome :=
  let chat_id := effective_chat_id update in
  let user_input := args context in
  match duration_minutes user_input with
  | Some minutes =>
      let seconds := duration_seconds minutes in
      if seconds <? 5 then
        Returns (reply_text update minimum_text None w)
      else
        match run_once AlarmCallback seconds chat_id (Py.str chat_id)
                {[ type_key := study_label minutes ]} w with
        | Returns scheduled =>
            Returns (reply_text update (timer_set_text minutes) None scheduled)
        | Raises w' => Raises w'
        end
  | None =>
      (* except (IndexError, ValueError) *)
      Returns (reply_text update pomodoro_usage_text None w)
  end.

(** *** The to-do list *)

(** [tasks_add_command] *)
Definition tasks_add_command (update : Update) (context : Context)
    (w : World) : World :=
  let user_id := effective_user_id update in
  let task_text := Py.strip (Py.join (lit " ") (args context)) in
  match task_text with
  | [] => reply_text update add_usage_text None w
  | _ =>
      (* the list of the user is created when it does not exist *)
      let created :=
        match user_tasks w !! user_id with
        | None => <[user_id := []]> (user_tasks w)
        | Some _ => user_tasks w
        end in
      let appended :=
        alter (fun tasks => tasks ++ [task_text]) user_id created in
      reply_text update
        (task_added_text task_text (Z.of_nat (length (appended !!! user_id))))
        Markdown (set_user_tasks appended w)
  end.

(** The loop of [tasks_list_command]: one line per task, numbered from
    [i], appended to [message]. *)
Fixpoint list_lines (message : pystr) (i : Z) (tasks : list pystr) : pystr :=
  match tasks with
  | [] => message
  | task :: rest =>
      list_lines (message ++ Py.str i ++ lit ". " ++ task ++ [10%N])
        (i + 1) rest
  end.

(** [tasks_list_command] *)
Definition tasks_list_command (update : Update) (context : Context)
    (w : World) : World :=
  let user_id := effective_user_id update in
  match user_tasks w !! user_id with
  | None | Some [] => reply_text update list_empty_text None w
  | Some tasks =>
      reply_text update (list_lines list_header 1 tasks) Markdown w
  end.

(** [tasks_done_command]; the failures of [int] and of [pop] are the
    exceptions its [except Exception] answers. *)
Definition tasks_done_command (update : Update) (context : Context)
    (w : World) : World :=
  let user_id := effective_user_id update in
  match args context with
  | [] => reply_text update done_usage_text None w
  | a :: _ =>
      if negb (Py.isdigit unicode_digit a) then
        reply_text update done_usage_text None w
      else
        match Py.int unicode_digit a with
        | None => reply_text update done_error_text None w
        | Some n =>
            let task_index := n - 1 in
            match user_tasks w !! user_id with
            | None | Some [] => reply_text update done_empty_text None w
            | Some tasks =>
                if (0 <=? task_index) && (task_index <? Z.of_nat (length tasks))
                then
                  match tasks !! Z.to_nat task_index with
                  | Some completed_task =>
                      reply_text update (completed_text completed_task)
                        Markdown
                        (set_user_tasks
                           (<[user_id := delete (Z.to_nat task_index) tasks]>
                              (user_tasks w)) w)
                  | None => reply_text update done_error_text None w
                  end
                else reply_text update done_missing_text None w
            end
        end
  end.

End Handlers.

(** ** The other functions of src/main.py *)

(** [get_task_path(user_id)] *)
Definition get_task_path (user_id : Z) : pystr := Py.str user_id.

(** The text of [start_command] around [user.mention_html()]. *)
Definition welcome_text (mention_html : pystr) : pystr :=
  lit "Welcome back, " ++ mention_html ++ lit "! " ++ [0x1F989%N] ++
  [10%N; 10%N] ++
  lit "I'm your Study Helper Bot. Here are my commands:" ++ [10%N] ++
  [0x1F4DA%N] ++
  lit " /tasks_add [task description] - Add a new assignment/task." ++
  [10%N] ++
  [0x1F4DD%N] ++ lit " /tasks_list - See all your current tasks." ++
  [10%N] ++
  [0x2705%N] ++ lit " /tasks_done [number] - Mark a task as complete." ++
  [10%N] ++
  [0x23F1%N; 0xFE0F%N] ++
  lit " /pomodoro [minutes] - Start a focus timer (e.g., /pomodoro 25)." ++
  [10%N] ++
  [0x1F4A1%N] ++ lit " /quote - Get a quick burst of motivation." ++
  [10%N].

(** [start_command]; [mention_html] is the text the transport makes of
    [update.effective_user], and [reply_html] is a reply in HTML mode. *)
Definition start_command (mention_html : pystr) (update : Update)
    (context : Context) (w : World) : World :=
  reply_text update (welcome_text mention_html) (Some (lit "HTML")) w.

(** [help_command] *)
Definition help_command (mention_html : pystr) (update : Update)
    (context : Context) (w : World) : World :=
  start_command mention_html update context w.

(** The list of [text_message_handler]. *)
Definition response_phrases : list pystr := [
  lit "Got it! That sounds interesting. Need to start a /pomodoro to focus on it?";
  lit "I'm listening! Don't forget to add that to your /tasks_list if it's a To-Do.";
  lit "Thanks for sharing! What's the next study step?";
  lit "Understood. If you need a quick break, try the /quote command!"
].

(** [text_message_handler]; nothing is sent when [random.choice]
    raises. *)
Definition text_message_handler (update : Update) (context : Context)
    (w : World) : option World :=
  match choice response_phrases w with
  | (Some phrase, w') => Some (reply_text update phrase None w')
  | (None, _) => None
  end.

Definition error_text : pystr :=
  lit "Oops! Something went wrong. Check the console for details or try again.".

(** [error_handler], for the update of a handler that raised: such an
    update carries a message, so [update.effective_message] is there and
    gets the reply. What it logs is outside the world. *)
Definition error_handler (update : Update) (context : Context)
    (w : World) : World :=
  reply_text update error_text None w.

(** What the application of [main] reacts to: an update for one of the
    handlers it registers, or the job queue running the pending job at a
    position. *)
Variant Event :=
  | OnStart (mention_html : pystr) (update : Update) (context : Context)
  | OnHelp (mention_html : pystr) (update : Update) (context : Context)
  | OnPomodoro (update : Update) (context : Context)
  | OnTasksAdd (update : Update) (context : Context)
  | OnTasksList (update : Update) (context : Context)
  | OnTasksDone (update : Update) (context : Context)
  | OnQuote (update : Update) (context : Context)
  | OnText (update : Update) (context : Context)
  | OnJob (i : nat).

(** The dictionary of line 27 and an application that has not run yet. *)
Definition initial_world (random_state : nat -> nat) (clock : nat -> N)
    : World :=
  {| user_tasks := ∅; job_queue := []; sent := [];
     random_state := random_state; clock := clock |}.

Section Application.

Variable unicode_digit : char -> digit_class.

(** The handler [main] registers for an event, and [error_handler] after
    it when the handler raises; [None] when there is no job at the
    position or its callback raises. *)
Definition step (e : Event) (w : World) : option World :=
  match e with
  | OnStart mention update context =>
      Some (start_command mention update context w)
  | OnHelp mention update context =>
      Some (help_command mention update context w)
  | OnPomodoro update context =>
      match pomodoro_command unicode_digit update context w with
      | Returns w' => Some w'
      | Raises w' => Some (error_handler update context w')
      end
  | OnTasksAdd update context => Some (tasks_add_command update context w)
  | OnTasksList update context => Some (tasks_list_command update context w)
  | OnTasksDone update context =>
      Some (tasks_done_command unicode_digit update context w)
  | OnQuote update context =>
      match quote_command update context w with
      | Some w' => Some w'
      | None => Some (error_handler update context w)
      end
  | OnText update context =>
      match text_message_handler update context w with
      | Some w' => Some w'
      | None => Some (error_handler update context w)
      end
  | OnJob i => fire i w
  end.

(** The events of a run, one after the other. *)
Fixpoint run (events : list Event) (w : World) : option World :=
  match events with
  | [] => Some w
  | e :: rest =>
      match step e w with
      | Some w' => run rest w'
      | None => None
      end
  end.

End Application.

(** A task as the list keeps it: not empty, with no whitespace at either
    end. *)
Definition trimmed (task : pystr) : Prop :=
  task <> [] /\ Py.strip task = task.

(** The job [pomodoro_command] hands to [run_once] for a chat and a
    number of minutes. *)
Definition study_job (chat_id minutes : Z) : Job :=
  {| job_callback := AlarmCallback;
     job_when := duration_seconds minutes;
     job_chat_id := chat_id;
     job_name := Py.str chat_id;
     job_data := {[ type_key := study_label minutes ]} |}.

(** A pending job as [pomodoro_command] makes it, for some number of
    minutes. *)
Definition timer_job (job : Job) : Prop :=
  exists m : Z,
    0 < m /\
    job_callback job = AlarmCallback /\
    job_when job = duration_seconds m /\
    job_name job = Py.str (job_chat_id job) /\
    job_data job = {[ type_key := study_label m ]}.

(** The tasks of every list are trimmed, and the pending jobs are jobs of
    the timer. *)
Definition well_kept (w : World) : Prop :=
  (forall user_id tasks,
     user_tasks w !! user_id = Some tasks -> Forall trimmed tasks) /\
  Forall timer_job (job_queue w).

(** The events that may write the dictionary, and those that may write the
    job queue. *)
Definition task_event (e : Event) : bool :=
  match e with
  | OnTasksAdd _ _ | OnTasksDone _ _ => true
  | _ => false
  end.

Definition timer_event (e : Event) : bool :=
  match e with
  | OnPomodoro _ _ | OnJob _ => true
  | _ => false
  end.

(** ** Sample inputs *)

(** The digits of the Latin-1 supplement: the superscripts two, three and
    one are digits for [str.isdigit] and no decimal characters. *)
Definition latin1_digit (c : char) : digit_class :=
  if ((c =? 0xB2) || (c =? 0xB3) || (c =? 0xB9))%N then DigitOnly
  else NotDigit.

Definition sample_update : Update :=
  {| effective_user_id := 7; effective_chat_id := 42 |}.

(** The clock reads midnight of 3 November 2026, and a minute later from
    the second reading on. *)
Definition sample_world : World :=
  {| user_tasks := {[ 7 := [lit "Read Chapter 3"; lit "Do homework"] ]};
     job_queue := []; sent := []; random_state := fun i => (3 * i + 2)%nat;
     clock := fun i =>
       match i with
       | O => 63929260800%N
       | S _ => 63929260860%N
       end |}.

(** The context of a command followed by [words]. *)
Definition request (words : list pystr) : Context := {| args := words |}.

(** A conversation: two tasks, a timer, a message that is no command, the
    first task done, a listing, and the timer running out. *)
Definition sample_events : list Event := [
  OnTasksAdd sample_update (request [lit "Read"; lit "Chapter"; lit "3"]);
  OnTasksAdd sample_update (request [lit "Do"; lit "homework"]);
  OnPomodoro sample_update (request [lit "5"]);
  OnText sample_update (request []);
  OnTasksDone sample_update (request [lit "1"]);
  OnTasksList sample_update (request []);
  OnJob 0
].

(** The world after the conversation. *)
Definition sample_outcome : World :=
  default (initial_world (fun i => i) (clock sample_world))
    (run latin1_digit sample_events
       (initial_world (fun i => i) (clock sample_world))).

(** The world after the first three events, the timer waiting. *)
Definition sample_pending : World :=
  default (initial_world (fun i => i) (clock sample_world))
    (run latin1_digit (take 3 sample_events)
       (initial_world (fun i => i) (clock sample_world))).

(** ** Facts about the string functions *)

Module PyFacts.

Lemma lstrip_no_space (s : pystr) :
  Forall (fun c => Py.isspace c = false) s -> Py.lstrip s = s.
Proof.
  destruct 1 as [|c s Hc _]; simpl; [done|]. by rewrite Hc.
Qed.

Lemma strip_no_space (s : pystr) :
  Forall (fun c => Py.isspace c = false) s -> Py.strip s = s.
Proof.
  intros Hs. unfold Py.strip, Py.rstrip.
  rewrite (lstrip_no_space s Hs).
  rewrite lstrip_no_space by by apply Forall_reverse.
  apply reverse_involutive.
Qed.

Lemma lstrip_all_space (s : pystr) :
  forallb Py.isspace s = true -> Py.lstrip s = [].
Proof.
  induction s as [|c s IH]; simpl; [done|].
  intros [Hc Hs]%andb_prop. rewrite Hc. auto.
Qed.

(** A text made of whitespace only, the empty one included, is empty
    after trimming. *)
Lemma strip_all_space (s : pystr) :
  forallb Py.isspace s = true -> Py.strip s = [].
Proof.
  intros Hs. unfold Py.strip. by rewrite (lstrip_all_space s Hs).
Qed.

Lemma lstrip_nil_inv (s : pystr) :
  Py.lstrip s = [] -> forallb Py.isspace s = true.
Proof.
  induction s as [|c s IH]; simpl; [done|].
  destruct (Py.isspace c); [auto | discriminate].
Qed.

(** Conversely, only whitespace is trimmed away. *)
Lemma strip_nil_inv (s : pystr) :
  Py.strip s = [] -> forallb Py.isspace s = true.
Proof.
  unfold Py.strip, Py.rstrip. intros H.
  apply lstrip_nil_inv.
  apply (f_equal reverse) in H. rewrite reverse_involutive in H.
  apply lstrip_nil_inv in H.
  rewrite forallb_forall in H.
  assert (Hall : forallb Py.isspace (Py.lstrip s) = true).
  { apply forallb_forall. intros c Hc. apply H.
    apply list_elem_of_In. rewrite elem_of_reverse. by apply list_elem_of_In. }
  clear H. induction s as [|c s IH]; simpl in *; [done|].
  destruct (Py.isspace c) eqn:Hc; [auto|].
  simpl in Hall. by rewrite Hc in Hall.
Qed.

Lemma join_singleton (sep s : pystr) : Py.join sep [s] = s.
Proof. done. Qed.

Lemma uint_chars_no_space (u : uint) :
  Forall (fun c => Py.isspace c = false) (Py.uint_chars u).
Proof. induction u; simpl; constructor; done. Qed.

Lemma uint_chars_nil_inv (u : uint) : Py.uint_chars u = [] -> u = Nil.
Proof. by destruct u. Qed.

Lemma lstrip_Forall (P : N -> Prop) (s : pystr) :
  Forall P s -> Forall P (Py.lstrip s).
Proof.
  induction 1 as [|c s Hc Hs IH]; simpl; [constructor|].
  destruct (Py.isspace c); [done | by constructor].
Qed.

Lemma strip_Forall (P : N -> Prop) (s : pystr) :
  Forall P s -> Forall P (Py.strip s).
Proof.
  intros Hs. unfold Py.strip, Py.rstrip.
  by apply Forall_reverse, lstrip_Forall, Forall_reverse, lstrip_Forall.
Qed.

(** Trimming leaves a text alone when it neither starts nor ends with
    whitespace. *)
Lemma strip_ends (s : pystr) :
  (forall c, head s = Some c -> Py.isspace c = false) ->
  (forall c, last s = Some c -> Py.isspace c = false) ->
  Py.strip s = s.
Proof.
  intros Hhead Hlast. unfold Py.strip, Py.rstrip.
  assert (Hl : Py.lstrip s = s).
  { destruct s as [|c s]; [done|]. simpl. by rewrite (Hhead c). }
  rewrite Hl.
  assert (Hr : Py.lstrip (reverse s) = reverse s).
  { destruct (reverse s) as [|c r] eqn:E; [done|].
    simpl. rewrite (Hlast c); [done|].
    by rewrite <- head_reverse, E. }
  rewrite Hr. apply reverse_involutive.
Qed.

Lemma join_words_head (sep : pystr) (words : list pystr) (c : N) :
  Forall Py.word words -> head (Py.join sep words) = Some c ->
  Py.isspace c = false.
Proof.
  destruct 1 as [|w ws [Hne Hw] _]; [done|].
  assert (head (Py.join sep (w :: ws)) = head w) as ->.
  { destruct w; [done|]. by destruct ws. }
  destruct Hw; [done|]. by intros [= <-].
Qed.

Lemma join_words_last (sep : pystr) (words : list pystr) (c : N) :
  Forall Py.word words -> last (Py.join sep words) = Some c ->
  Py.isspace c = false.
Proof.
  induction 1 as [|w ws [Hne Hw] Hws IH]; [done|].
  destruct ws as [|w' ws].
  - simpl. intros Hl. apply last_Some in Hl as [l' ->].
    by apply Forall_app in Hw as [_ [? _]%Forall_cons].
  - change (Py.join sep (w :: w' :: ws))
      with (w ++ sep ++ Py.join sep (w' :: ws)).
    rewrite !app_assoc.
    apply Forall_cons in Hws as [[Hne' Hw'] Hws].
    assert (Py.join sep (w' :: ws) <> []) as Hj.
    { destruct w'; [done|]. by destruct ws. }
    destruct (Py.join sep (w' :: ws)) as [|x j] eqn:E using rev_ind; [done|].
    rewrite app_assoc, last_snoc. intros [= <-].
    apply IH. by rewrite last_snoc.
Qed.

(** The text of a message made of words is already trimmed. *)
Lemma strip_join_words (words : list pystr) :
  Forall Py.word words ->
  Py.strip (Py.join (lit " ") words) = Py.join (lit " ") words.
Proof.
  intros Hw. apply strip_ends; intros c Hc.
  - by apply (join_words_head (lit " ") words).
  - by apply (join_words_last (lit " ") words).
Qed.

Lemma int_lstrip_no_space (s : pystr) :
  Forall (fun c => Py.int_space c = false) s -> Py.int_lstrip s = s.
Proof.
  destruct 1 as [|c s Hc _]; simpl; [done|]. by rewrite Hc.
Qed.

Lemma int_strip_no_space (s : pystr) :
  Forall (fun c => Py.int_space c = false) s -> Py.int_strip s = s.
Proof.
  intros Hs. unfold Py.int_strip.
  rewrite (int_lstrip_no_space s Hs).
  rewrite int_lstrip_no_space by by apply Forall_reverse.
  apply reverse_involutive.
Qed.

Lemma int_lstrip_Forall (P : N -> Prop) (s : pystr) :
  Forall P s -> Forall P (Py.int_lstrip s).
Proof.
  induction 1 as [|c s Hc Hs IH]; simpl; [constructor|].
  destruct (Py.int_space c); [done | by constructor].
Qed.

Lemma int_strip_Forall (P : N -> Prop) (s : pystr) :
  Forall P s -> Forall P (Py.int_strip s).
Proof.
  intros Hs. unfold Py.int_strip.
  by apply Forall_reverse, int_lstrip_Forall, Forall_reverse,
    int_lstrip_Forall.
Qed.

Lemma uint_chars_no_int_space (u : uint) :
  Forall (fun c => Py.int_space c = false) (Py.uint_chars u).
Proof. induction u; simpl; constructor; done. Qed.

Section Unicode.

Variable unicode_digit : char -> digit_class.

Lemma isdigit_Forall (s : pystr) :
  Py.isdigit unicode_digit s = true ->
  Forall (fun c => Py.isdigit_char unicode_digit c = true) s.
Proof.
  unfold Py.isdigit. destruct s; [done|].
  intros H. apply Forall_forall. intros c Hc.
  rewrite forallb_forall in H. by apply H, list_elem_of_In.
Qed.

(** A text of digits is never read as a negative number. *)
Lemma int_isdigit_nonneg (s : pystr) (z : Z) :
  Py.isdigit unicode_digit s = true ->
  Py.int unicode_digit s = Some z -> 0 <= z.
Proof.
  intros Hd%isdigit_Forall. unfold Py.int.
  apply (int_strip_Forall _ s) in Hd.
  destruct (Py.int_strip s) as [|c body]; [done|].
  apply Forall_cons in Hd as [Hc _].
  destruct (c =? 45)%N eqn:E45.
  { apply N.eqb_eq in E45 as ->. done. }
  assert (forall o : option uint,
    (fun u => Z.of_N (N.of_uint u)) <$> o = Some z -> 0 <= z) as Hpos.
  { intros [u|]; [|done]. intros [= <-]. lia. }
  destruct (c =? 43)%N; apply Hpos.
Qed.

Lemma numeral_uint_chars (u : uint) :
  Py.numeral unicode_digit true (Py.uint_chars u) = Some u.
Proof. induction u; simpl; [done | by rewrite IHu ..]. Qed.

Lemma numeral_uint_chars_first (u : uint) :
  u <> Nil -> Py.numeral unicode_digit false (Py.uint_chars u) = Some u.
Proof.
  destruct u; [done | intros _; simpl; by rewrite numeral_uint_chars ..].
Qed.

Lemma isdigit_uint_chars (u : uint) :
  u <> Nil -> Py.isdigit unicode_digit (Py.uint_chars u) = true.
Proof.
  intros Hu. unfold Py.isdigit.
  assert (H : forallb (Py.isdigit_char unicode_digit) (Py.uint_chars u) = true)
    by (clear Hu; induction u; simpl; auto).
  destruct (Py.uint_chars u) eqn:E; [|done].
  by apply uint_chars_nil_inv in E.
Qed.

(** Reading back the decimal representation of an integer. *)
Lemma int_str (z : Z) : Py.int unicode_digit (Py.str z) = Some z.
Proof.
  unfold Py.int. destruct z as [|p|p]; simpl Py.str.
  - done.
  - rewrite int_strip_no_space by apply uint_chars_no_int_space.
    pose proof (Unsigned.to_uint_nonnil p) as Hnil.
    pose proof (DecimalPos.Unsigned.of_to p) as Hval.
    pose proof (numeral_uint_chars_first _ Hnil) as Hnum.
    destruct (Pos.to_uint p) as [|u|u|u|u|u|u|u|u|u|u]; [done | ..];
      cbn [Py.uint_chars] in Hnum |- *; cbn [N.eqb Pos.eqb];
      rewrite Hnum; cbn [fmap option_fmap option_map]; unfold N.of_uint;
      by rewrite Hval.
  - rewrite int_strip_no_space
      by (constructor; [done | apply uint_chars_no_int_space]).
    cbn [N.eqb Pos.eqb].
    rewrite numeral_uint_chars_first by apply Unsigned.to_uint_nonnil.
    simpl. unfold N.of_uint. by rewrite DecimalPos.Unsigned.of_to.
Qed.

(** The decimal representation of a natural number is all digits. *)
Lemma isdigit_str (z : Z) :
  0 <= z -> Py.isdigit unicode_digit (Py.str z) = true.
Proof.
  destruct z as [|p|p]; simpl; [done | | lia].
  intros _. apply isdigit_uint_chars, Unsigned.to_uint_nonnil.
Qed.

End Unicode.

End PyFacts.

(** ** The focus timer *)

(** [run_once] takes a delay that is not negative when the date it gives
    is in the calendar, and raises when the date is past it. *)
Lemma run_once_returns (callback : Callback) (when chat_id : Z)
    (name : pystr) (data : gmap pystr pystr) (w : World) :
  0 <= when ->
  Z.of_N (clock w 0) + when <= last_second ->
  run_once callback when chat_id name data w =
    Returns (enqueue {| job_callback := callback; job_when := when;
                        job_chat_id := chat_id; job_name := name;
                        job_data := data |} (tick w)).
Proof.
  intros Hw Hfit. unfold run_once.
  replace (0 <=? Z.of_N (clock w 0) + when) with true
    by (symmetry; apply Z.leb_le; lia).
  by replace (Z.of_N (clock w 0) + when <=? last_second) with true
    by (symmetry; by apply Z.leb_le).
Qed.

Lemma run_once_raises (callback : Callback) (when chat_id : Z)
    (name : pystr) (data : gmap pystr pystr) (w : World) :
  last_second < Z.of_N (clock w 0) + when ->
  run_once callback when chat_id name data w = Raises (tick w).
Proof.
  intros Hlate. unfold run_once.
  replace (Z.of_N (clock w 0) + when <=? last_second) with false
    by (symmetry; by apply Z.leb_gt).
  by rewrite andb_false_r.
Qed.

Section Timer.

Variable unicode_digit : char -> digit_class.

(** The minutes of a request are never negative. *)
Lemma duration_minutes_nonneg (user_input : list pystr) (m : Z) :
  duration_minutes unicode_digit user_input = Some m -> 0 <= m.
Proof.
  unfold duration_minutes.
  destruct user_input as [|a ?]; [intros [= <-]; lia|].
  destruct (Py.isdigit unicode_digit a) eqn:Ha; [|intros [= <-]; lia].
  by apply PyFacts.int_isdigit_nonneg.
Qed.

(** What an accepted request does to the world. *)
Lemma pomodoro_accepted (update : Update) (context : Context) (w : World)
    (m : Z) :
  duration_minutes unicode_digit (args context) = Some m ->
  5 <= duration_seconds m ->
  Z.of_N (clock w 0) + duration_seconds m <= last_second ->
  pomodoro_command unicode_digit update context w =
    Returns
      (reply_text update (timer_set_text m) None
         (enqueue (study_job (effective_chat_id update) m) (tick w))).
Proof.
  intros Hm Hs Hfit. unfold pomodoro_command. rewrite Hm.
  destruct (duration_seconds m <? 5) eqn:E.
  { apply Z.ltb_lt in E. lia. }
  by rewrite run_once_returns by lia.
Qed.

Lemma pomodoro_rejected (update : Update) (context : Context) (w : World)
    (m : Z) :
  duration_minutes unicode_digit (args context) = Some m ->
  duration_seconds m < 5 ->
  pomodoro_command unicode_digit update context w =
    Returns (reply_text update minimum_text None w).
Proof.
  intros Hm Hs. unfold pomodoro_command. rewrite Hm.
  by apply Z.ltb_lt in Hs as ->.
Qed.

(** A request whose date is past the calendar raises; the clock has been
    read and nothing else has happened. *)
Lemma pomodoro_overflow (update : Update) (context : Context) (w : World)
    (m : Z) :
  duration_minutes unicode_digit (args context) = Some m ->
  5 <= duration_seconds m ->
  last_second < Z.of_N (clock w 0) + duration_seconds m ->
  pomodoro_command unicode_digit update context w = Raises (tick w).
Proof.
  intros Hm Hs Hlate. unfold pomodoro_command. rewrite Hm.
  destruct (duration_seconds m <? 5) eqn:E.
  { apply Z.ltb_lt in E. lia. }
  by rewrite run_once_raises.
Qed.

(** What [pomodoro_command] does to the job queue, request by request. *)
Lemma pomodoro_job_queue (update : Update) (context : Context) (w : World) :
  job_queue (after (pomodoro_command unicode_digit update context w)) =
    job_queue w \/
  exists m : Z,
    0 < m /\
    duration_minutes unicode_digit (args context) = Some m /\
    job_queue (after (pomodoro_command unicode_digit update context w)) =
      job_queue w ++ [study_job (effective_chat_id update) m].
Proof.
  destruct (duration_minutes unicode_digit (args context)) as [m|] eqn:E.
  - pose proof (duration_minutes_nonneg _ _ E) as Hm.
    destruct (Z.lt_ge_cases (duration_seconds m) 5) as [Hs|Hs].
    { left. by rewrite (pomodoro_rejected update context w m E Hs). }
    destruct (Z.le_gt_cases (Z.of_N (clock w 0) + duration_seconds m)
                last_second) as [Hfit|Hlate].
    + right. exists m. split; [|split; [done|]].
      * destruct (decide (m = 0)) as [->|]; [|lia]. by vm_compute in Hs.
      * by rewrite (pomodoro_accepted update context w m E Hs Hfit).
    + left. by rewrite (pomodoro_overflow update context w m E Hs Hlate).
  - left. unfold pomodoro_command. by rewrite E.
Qed.

(** C1. When the request for [m] minutes is accepted, its delay being 5
    seconds or more and its date in the calendar, the job is scheduled
    after 10 seconds when [m] is 25 and after [m * 60] seconds otherwise,
    and no other delay is ever given to a job of the request; 25 is what a
    request without an argument and the request [25] ask for, and the
    delays of 25 and of 5 minutes are 10 and 300 seconds. *)
Theorem pomodoro_resolved_delay (update : Update) (context : Context)
    (w : World) (m : Z) :
  duration_minutes unicode_digit (args context) = Some m ->
  5 <= duration_seconds m ->
  Z.of_N (clock w 0) + duration_seconds m <= last_second ->
  (exists job w',
      pomodoro_command unicode_digit update context w = Returns w' /\
      job_queue w' = job_queue w ++ [job] /\
      job_when job = duration_seconds m) /\
  (forall job,
      job_queue (after (pomodoro_command unicode_digit update context w)) =
        job_queue w ++ [job] ->
      job_when job = duration_seconds m) /\
  (m = 25 -> duration_seconds m = 10) /\
  (m <> 25 -> duration_seconds m = m * 60) /\
  duration_minutes unicode_digit [] = Some 25 /\
  duration_minutes unicode_digit [lit "25"] = Some 25 /\
  duration_seconds 25 = 10 /\
  duration_seconds 5 = 300.
Proof.
  intros Hm Hs Hfit.
  pose proof (pomodoro_accepted update context w m Hm Hs Hfit) as E.
  split; [|split; [|split; [|split]]].
  - rewrite E. by eexists _, _.
  - intros job. rewrite E.
    cbn [after reply_text send_message enqueue job_queue].
    intros Hq. by apply app_inj_tail in Hq as [_ <-].
  - by intros ->.
  - intros Hne. unfold duration_seconds.
    destruct (m =? 25) eqn:E25; [|done]. apply Z.eqb_eq in E25. done.
  - done.
Qed.

(** C2. A request whose argument is no number, such as [abc], is never
    answered with the usage message, whatever the clock shows: the handler
    takes the default of 25 minutes, and with the date of a job ten
    seconds ahead in the calendar it schedules that job and confirms 25
    minutes. A request without an argument asks for 25 minutes. *)
Theorem pomodoro_argument_not_a_number (update : Update) (w : World) :
  Py.isdigit unicode_digit (lit "abc") = false /\
  Py.int unicode_digit (lit "abc") = None /\
  duration_minutes unicode_digit [lit "abc"] = Some 25 /\
  (forall w',
     pomodoro_command unicode_digit update {| args := [lit "abc"] |} w <>
       Returns (reply_text update pomodoro_usage_text None w')) /\
  (Z.of_N (clock w 0) + 10 <= last_second ->
   pomodoro_command unicode_digit update {| args := [lit "abc"] |} w =
     Returns
       (reply_text update (timer_set_text 25) None
          (enqueue
             {| job_callback := AlarmCallback; job_when := 10;
                job_chat_id := effective_chat_id update;
                job_name := Py.str (effective_chat_id update);
                job_data := {[ type_key := study_label 25 ]} |}
             (tick w))) /\
   length (job_queue
             (after (pomodoro_command unicode_digit update
                       {| args := [lit "abc"] |} w))) =
     S (length (job_queue w))) /\
  timer_set_text 25 <> pomodoro_usage_text /\
  duration_minutes unicode_digit [] = Some 25.
Proof.
  assert (duration_minutes unicode_digit [lit "abc"] = Some 25) as Hm
    by reflexivity.
  assert (timer_set_text 25 <> pomodoro_usage_text) as Htext by done.
  split; [done|]. split; [done|]. split; [done|].
  split; [|split; [|done]].
  - intros w'.
    destruct (Z.le_gt_cases (Z.of_N (clock w 0) + duration_seconds 25)
                last_second) as [Hfit|Hlate].
    + rewrite (pomodoro_accepted update {| args := [lit "abc"] |} w 25 Hm)
        by done.
      intros E. apply (f_equal (fun o => sent (after o))) in E.
      cbn [after reply_text send_message enqueue tick sent] in E.
      by apply app_inj_tail in E as [_ [= E]].
    + by rewrite (pomodoro_overflow update {| args := [lit "abc"] |} w 25 Hm)
        by done.
  - intros Hfit.
    rewrite (pomodoro_accepted update {| args := [lit "abc"] |} w 25 Hm)
      by done.
    split; [done|].
    cbn [after reply_text send_message enqueue job_queue tick].
    rewrite length_app. cbn [length]. lia.
Qed.

(** The usage message of the timer is reached by an argument that
    [str.isdigit] takes and [int] refuses, such as the superscript two. *)
Example pomodoro_superscript_usage (update : Update) (w : World) :
  pomodoro_command latin1_digit update (request [[0xB2%N]]) w =
    Returns (reply_text update pomodoro_usage_text None w).
Proof. reflexivity. Qed.

(** C3, as the code has it. A request whose delay is below 5 seconds, as
    the one for 0 minutes, is answered with the minimum-duration message
    and no job is scheduled; a request whose delay is 5 seconds or more
    and whose date is in the calendar adds exactly one job to the
    queue. *)
Theorem pomodoro_minimum_delay (update : Update) (context : Context)
    (w : World) (m : Z) :
  duration_minutes unicode_digit (args context) = Some m ->
  let o := pomodoro_command unicode_digit update context w in
  (duration_seconds m < 5 ->
     (exists w', o = Returns w') /\
     job_queue (after o) = job_queue w /\
     sent (after o) =
       sent w ++ [{| msg_chat_id := effective_chat_id update;
                     msg_text := minimum_text;
                     msg_parse_mode := None |}]) /\
  (5 <= duration_seconds m ->
   Z.of_N (clock w 0) + duration_seconds m <= last_second ->
     (exists w', o = Returns w') /\
     exists job, job_queue (after o) = job_queue w ++ [job]) /\
  (duration_seconds m < 5 <-> m = 0) /\
  duration_minutes unicode_digit [lit "0"] = Some 0.
Proof.
  intros Hm o. subst o. split; [|split; [|split]].
  - intros Hs. rewrite (pomodoro_rejected update context w m Hm Hs).
    split; [by eexists | done].
  - intros Hs Hfit. rewrite (pomodoro_accepted update context w m Hm Hs Hfit).
    split; by eexists.
  - pose proof (duration_minutes_nonneg _ _ Hm). unfold duration_seconds.
    destruct (m =? 25) eqn:E; lia.
  - done.
Qed.

(** The job queue runs a pending job of the timer: it leaves the queue
    and one message with its label goes to its chat. *)
Lemma fire_alarm (i : nat) (w : World) (job : Job) (label : pystr) :
  job_queue w !! i = Some job ->
  job_callback job = AlarmCallback ->
  job_data job !! type_key = Some label ->
  exists w',
    fire i w = Some w' /\
    job_queue w' = delete i (job_queue w) /\
    user_tasks w' = user_tasks w /\
    sent w' = sent w ++
      [{| msg_chat_id := job_chat_id job;
          msg_text :=
            lit "**DING DING!** Your " ++ label ++
            lit " timer is finished! Time for a well-deserved break or move on to the next task.";
          msg_parse_mode := Markdown |}].
Proof.
  intros Hi Hcb Hdata. unfold fire. rewrite Hi, Hcb.
  unfold alarm_callback. rewrite Hdata. by eexists.
Qed.

(** C4. The job of an accepted request for [m] minutes, its delay being 5
    seconds or more and its date in the calendar, carries the chat of the
    request and the label made of [m]; the confirmation names [m]; and
    whenever the job queue runs that job, it leaves the queue and exactly
    one message, holding the label, goes to that chat. *)
Theorem pomodoro_job_and_notification (update : Update)
    (context : Context) (w : World) (m : Z) :
  duration_minutes unicode_digit (args context) = Some m ->
  5 <= duration_seconds m ->
  Z.of_N (clock w 0) + duration_seconds m <= last_second ->
  exists job w',
    pomodoro_command unicode_digit update context w = Returns w' /\
    job_queue w' = job_queue w ++ [job] /\
    job_chat_id job = effective_chat_id update /\
    job_data job = {[ lit "type" := Py.str m ++ lit "-minute study" ]} /\
    sent w' = sent w ++
      [{| msg_chat_id := effective_chat_id update;
          msg_text :=
            [0x2705%N] ++ lit " Timer set! You are now focusing for " ++
            Py.str m ++ lit " minutes. I'll notify you when time's up!";
          msg_parse_mode := None |}] /\
    forall (later : World) (i : nat),
      job_queue later !! i = Some job ->
      exists fired,
        fire i later = Some fired /\
        job_queue fired = delete i (job_queue later) /\
        sent fired = sent later ++
          [{| msg_chat_id := effective_chat_id update;
              msg_text :=
                lit "**DING DING!** Your " ++
                (Py.str m ++ lit "-minute study") ++
                lit " timer is finished! Time for a well-deserved break or move on to the next task.";
              msg_parse_mode := Some (lit "Markdown") |}].
Proof.
  intros Hm Hs Hfit.
  rewrite (pomodoro_accepted update context w m Hm Hs Hfit).
  eexists _, _. split; [reflexivity|]. split; [reflexivity|]. repeat split.
  intros later i Hi.
  destruct (fire_alarm i later _ (study_label m) Hi) as (w' & ? & ? & _ & ?);
    [done | apply lookup_singleton_eq |].
  by exists w'.
Qed.

End Timer.

(** ** The to-do list *)

(** A reply leaves the dictionary alone. *)
Lemma user_tasks_reply_text (update : Update) (text : pystr)
    (parse_mode : option pystr) (w : World) :
  user_tasks (reply_text update text parse_mode w) = user_tasks w.
Proof. done. Qed.

Lemma sent_reply_text (update : Update) (text : pystr)
    (parse_mode : option pystr) (w : World) :
  sent (reply_text update text parse_mode w) =
    sent w ++ [{| msg_chat_id := effective_chat_id update; msg_text := text;
                  msg_parse_mode := parse_mode |}].
Proof. done. Qed.

(** The loop of the listing, one task more. *)
Lemma list_lines_snoc (message : pystr) (i : Z) (tasks : list pystr)
    (task : pystr) :
  list_lines message i (tasks ++ [task]) =
    list_lines message i tasks ++
    Py.str (i + Z.of_nat (length tasks)) ++ lit ". " ++ task ++ [10%N].
Proof.
  revert message i. induction tasks as [|t tasks IH]; intros message i.
  - simpl. by rewrite Z.add_0_r.
  - cbn [app list_lines length]. rewrite IH. do 3 f_equal. lia.
Qed.

(** What [tasks_add_command] does with a text that is not blank. *)
Lemma tasks_add_accepted (update : Update) (context : Context) (w : World) :
  let user_id := effective_user_id update in
  let task_text := Py.strip (Py.join (lit " ") (args context)) in
  let old := default [] (user_tasks w !! user_id) in
  task_text <> [] ->
  tasks_add_command update context w =
    reply_text update
      (task_added_text task_text (Z.of_nat (length old) + 1)) Markdown
      (set_user_tasks (<[user_id := old ++ [task_text]]> (user_tasks w)) w).
Proof.
  intros user_id task_text old Hne. unfold tasks_add_command.
  fold user_id. fold task_text.
  destruct task_text as [|c text] eqn:E; [done|]. rewrite <- E. clear E Hne.
  subst old.
  destruct (user_tasks w !! user_id) as [tasks|] eqn:Hu; cbn [default].
  - rewrite (alter_alt_Some _ _ _ _ Hu). rewrite lookup_total_insert_eq.
    do 2 f_equal. rewrite length_app. simpl. lia.
  - rewrite alter_insert_eq. rewrite lookup_total_insert_eq. done.
Qed.

(** C5. When the text of the request is empty after trimming, the reply is
    the usage message and the world is otherwise as before: the dictionary
    is the same one, with no entry made for the user. A text is empty
    after trimming exactly when all its characters are whitespace. *)
Theorem tasks_add_blank (update : Update) (context : Context) (w : World) :
  let text := Py.join (lit " ") (args context) in
  Py.strip text = [] ->
  forallb Py.isspace text = true /\
  tasks_add_command update context w =
    reply_text update add_usage_text None w /\
  user_tasks (tasks_add_command update context w) = user_tasks w /\
  user_tasks (tasks_add_command update context w) !! effective_user_id update =
    user_tasks w !! effective_user_id update.
Proof.
  intros text Hblank.
  assert (tasks_add_command update context w =
          reply_text update add_usage_text None w) as E.
  { unfold tasks_add_command. fold text. by rewrite Hblank. }
  split; [by apply PyFacts.strip_nil_inv|]. by rewrite E.
Qed.

(** C6. A text that is not empty after trimming is appended to the list
    of the user, an absent list counting as empty; the reply reports the
    new length, and the listing that follows ends with the line of that
    number and that text. *)
Theorem tasks_add_appends (update : Update) (context listing : Context)
    (w : World) :
  let user_id := effective_user_id update in
  let task_text := Py.strip (Py.join (lit " ") (args context)) in
  let old := default [] (user_tasks w !! user_id) in
  let count := Z.of_nat (length old) + 1 in
  let w' := tasks_add_command update context w in
  task_text <> [] ->
  user_tasks w' = <[user_id := old ++ [task_text]]> (user_tasks w) /\
  sent w' = sent w ++
    [{| msg_chat_id := effective_chat_id update;
        msg_text :=
          [0x1F4DD%N] ++ lit " Task added: **" ++ task_text ++
          lit "** (Task #" ++ Py.str count ++ lit ")";
        msg_parse_mode := Some (lit "Markdown") |}] /\
  (old ++ [task_text]) !! Z.to_nat (count - 1) = Some task_text /\
  Z.of_nat (length (old ++ [task_text])) = count /\
  sent (tasks_list_command update listing w') = sent w' ++
    [{| msg_chat_id := effective_chat_id update;
        msg_text :=
          list_lines list_header 1 old ++
          Py.str count ++ lit ". " ++ task_text ++ [10%N];
        msg_parse_mode := Some (lit "Markdown") |}].
Proof.
  intros user_id task_text old count w' Hne. subst w'.
  rewrite (tasks_add_accepted update context w Hne).
  fold user_id. fold task_text. fold old. fold count.
  split; [done|]. split; [done|]. split; [|split].
  - subst count. apply list_lookup_middle. lia.
  - subst count. rewrite length_app. simpl. lia.
  - unfold tasks_list_command. fold user_id.
    rewrite user_tasks_reply_text. cbn [set_user_tasks user_tasks].
    rewrite lookup_insert_eq.
    destruct (old ++ [task_text]) as [|t ts] eqn:E.
    { by destruct old. }
    rewrite <- E, sent_reply_text, list_lines_snoc.
    replace (1 + Z.of_nat (length old)) with count by (subst count; lia).
    done.
Qed.

Section Done.

Variable unicode_digit : char -> digit_class.

(** What [tasks_done_command] does, by the cases of its body, when its
    argument is the number [k]. *)
Lemma tasks_done_number (update : Update) (context : Context) (w : World)
    (a : pystr) (rest : list pystr) (k : Z) :
  args context = a :: rest ->
  Py.isdigit unicode_digit a = true ->
  Py.int unicode_digit a = Some k ->
  tasks_done_command unicode_digit update context w =
    match user_tasks w !! effective_user_id update with
    | None | Some [] => reply_text update done_empty_text None w
    | Some tasks =>
        match tasks !! Z.to_nat (k - 1) with
        | Some completed_task =>
            if 1 <=? k then
              reply_text update (completed_text completed_task) Markdown
                (set_user_tasks
                   (<[effective_user_id update :=
                        delete (Z.to_nat (k - 1)) tasks]> (user_tasks w)) w)
            else reply_text update done_missing_text None w
        | None => reply_text update done_missing_text None w
        end
    end.
Proof.
  intros Hargs Hdigit Hint. unfold tasks_done_command.
  rewrite Hargs, Hdigit, Hint. cbn [negb].
  destruct (user_tasks w !! effective_user_id update) as [[|t ts]|]; try done.
  set (tasks := t :: ts).
  destruct (Z.leb_spec 1 k) as [Hk|Hk].
  - replace (0 <=? k - 1) with true by (symmetry; apply Z.leb_le; lia).
    cbn [andb].
    destruct (Z.ltb_spec (k - 1) (Z.of_nat (length tasks))) as [Hlt|Hge].
    + destruct (lookup_lt_is_Some_2 tasks (Z.to_nat (k - 1))) as [c Hc];
        [lia|]. by rewrite Hc.
    + rewrite (lookup_ge_None_2 tasks (Z.to_nat (k - 1))) by lia. done.
  - replace (0 <=? k - 1) with false by (symmetry; apply Z.leb_gt; lia).
    cbn [andb]. by destruct (tasks !! Z.to_nat (k - 1)).
Qed.

(** C7. For a list of length [L] and a number [k] from 1 to [L], the
    [k]-th task is taken out and named in the reply; the tasks before it
    keep their numbers and every task after it has its number lowered by
    one. *)
Theorem tasks_done_removes (update : Update) (context : Context)
    (w : World) (a : pystr) (rest : list pystr) (k : Z)
    (tasks : list pystr) :
  args context = a :: rest ->
  Py.isdigit unicode_digit a = true ->
  Py.int unicode_digit a = Some k ->
  user_tasks w !! effective_user_id update = Some tasks ->
  1 <= k <= Z.of_nat (length tasks) ->
  let w' := tasks_done_command unicode_digit update context w in
  exists (before : list pystr) (completed : pystr) (after : list pystr),
    tasks = before ++ completed :: after /\
    Z.of_nat (length before) = k - 1 /\
    user_tasks w' =
      <[effective_user_id update := before ++ after]> (user_tasks w) /\
    sent w' = sent w ++
      [{| msg_chat_id := effective_chat_id update;
          msg_text :=
            [0x2705%N] ++ lit " Great job! You completed: **" ++
            completed ++ lit "**";
          msg_parse_mode := Some (lit "Markdown") |}] /\
    (forall n : nat, (1 <= n)%nat -> Z.of_nat n < k ->
       (before ++ after) !! (n - 1)%nat = tasks !! (n - 1)%nat) /\
    (forall n : nat, k < Z.of_nat n ->
       (before ++ after) !! (n - 2)%nat = tasks !! (n - 1)%nat).
Proof.
  intros Hargs Hdigit Hint Hu Hk w'. subst w'.
  rewrite (tasks_done_number update context w a rest k Hargs Hdigit Hint).
  rewrite Hu.
  destruct (lookup_lt_is_Some_2 tasks (Z.to_nat (k - 1))) as [c Hc]; [lia|].
  destruct tasks as [|t ts] eqn:Et; [simpl in Hk; lia|]. rewrite <- Et in *.
  rewrite Hc. replace (1 <=? k) with true by (symmetry; apply Z.leb_le; lia).
  rewrite delete_take_drop.
  exists (take (Z.to_nat (k - 1)) tasks), c,
    (drop (S (Z.to_nat (k - 1))) tasks).
  split; [by rewrite take_drop_middle|].
  split; [rewrite length_take; lia|].
  split; [done|]. split; [done|].
  rewrite <- delete_take_drop. split.
  - intros n Hn1 Hn. apply list_lookup_delete_lt. lia.
  - intros n Hn. rewrite list_lookup_delete_ge by lia. f_equal. lia.
Qed.

(** C8. With a number [k] as argument: a user without tasks, the list
    absent or empty, is told that the list is empty; for a list that is
    not empty and a [k] outside 1 to its length the reply is that the
    task number does not exist; in both cases the dictionary is as it
    was. *)
Theorem tasks_done_failures (update : Update) (context : Context)
    (w : World) (a : pystr) (rest : list pystr) (k : Z) :
  args context = a :: rest ->
  Py.isdigit unicode_digit a = true ->
  Py.int unicode_digit a = Some k ->
  let user_id := effective_user_id update in
  let w' := tasks_done_command unicode_digit update context w in
  (user_tasks w !! user_id = None \/ user_tasks w !! user_id = Some [] ->
     w' = reply_text update done_empty_text None w /\
     user_tasks w' = user_tasks w) /\
  (forall tasks : list pystr,
     user_tasks w !! user_id = Some tasks -> tasks <> [] ->
     ~ (1 <= k <= Z.of_nat (length tasks)) ->
     w' = reply_text update done_missing_text None w /\
     user_tasks w' = user_tasks w).
Proof.
  intros Hargs Hdigit Hint user_id w'. subst w' user_id.
  rewrite (tasks_done_number update context w a rest k Hargs Hdigit Hint).
  split.
  - by intros [-> | ->].
  - intros tasks -> Hne Hk. destruct tasks as [|t ts] eqn:Et; [done|].
    rewrite <- Et in *. clear Hne.
    destruct (tasks !! Z.to_nat (k - 1)) as [c|] eqn:Hc; [|done].
    apply lookup_lt_Some in Hc.
    replace (1 <=? k) with false by (symmetry; apply Z.leb_gt; lia).
    done.
Qed.

(** C10. The three operations on the to-do list of a user leave the
    entry of every other user as it was. *)
Theorem tasks_other_users (update : Update) (context : Context)
    (w : World) (other : Z) :
  other <> effective_user_id update ->
  user_tasks (tasks_add_command update context w) !! other =
    user_tasks w !! other /\
  user_tasks (tasks_list_command update context w) !! other =
    user_tasks w !! other /\
  user_tasks (tasks_done_command unicode_digit update context w) !! other =
    user_tasks w !! other.
Proof.
  intros Hother. repeat split.
  - destruct (Py.strip (Py.join (lit " ") (args context))) as [|c s] eqn:E.
    + unfold tasks_add_command. by rewrite E.
    + rewrite tasks_add_accepted by by rewrite E.
      rewrite user_tasks_reply_text. cbn [set_user_tasks user_tasks].
      by rewrite lookup_insert_ne.
  - unfold tasks_list_command.
    by destruct (user_tasks w !! effective_user_id update) as [[|??]|].
  - unfold tasks_done_command.
    repeat (case_match; try done).
    rewrite user_tasks_reply_text. cbn [set_user_tasks user_tasks].
    by rewrite lookup_insert_ne.
Qed.

End Done.

(** ** The quotes *)

(** C9. Whatever the generator draws, the reply of the quote command is
    made of one of the five quotes of the list. *)
Theorem quote_reply_member (update : Update) (context : Context) (w : World) :
  length quotes = 5%nat /\
  exists (quote : pystr) (w' : World),
    quote ∈ quotes /\
    quote_command update context w = Some w' /\
    sent w' = sent w ++
      [{| msg_chat_id := effective_chat_id update;
          msg_text :=
            [0x1F4A1%N] ++ lit " **Motivation Boost:**" ++ [10%N; 10%N] ++
            lit "_" ++ quote ++ lit "_";
          msg_parse_mode := Some (lit "Markdown") |}].
Proof.
  split; [done|]. unfold quote_command, get_motivational_quote, choice.
  destruct (lookup_lt_is_Some_2 quotes
              (random_state w 0 `mod` length quotes)%nat) as [q Hq].
  { apply Nat.mod_upper_bound. done. }
  rewrite Hq. exists q. eexists. split; [|split; [reflexivity|done]].
  by eapply list_elem_of_lookup_2.
Qed.

(** ** The statements at sample requests *)

(** [/pomodoro 5]: the job waits 300 seconds. *)
Lemma pomodoro_resolved_delay_witness :
  duration_minutes latin1_digit (args (request [lit "5"])) = Some 5 /\
  5 <= duration_seconds 5 /\
  Z.of_N (clock sample_world 0) + duration_seconds 5 <= last_second /\
  exists job w',
    pomodoro_command latin1_digit sample_update (request [lit "5"])
      sample_world = Returns w' /\
    job_queue w' = job_queue sample_world ++ [job] /\
    job_when job = duration_seconds 5.
Proof.
  assert (duration_minutes latin1_digit (args (request [lit "5"])) = Some 5)
    as Hm by reflexivity.
  assert (5 <= duration_seconds 5) as Hs by (vm_compute; discriminate).
  assert (Z.of_N (clock sample_world 0) + duration_seconds 5 <= last_second)
    as Hfit by (vm_compute; discriminate).
  split; [exact Hm|]. split; [exact Hs|]. split; [exact Hfit|].
  exact (proj1 (pomodoro_resolved_delay latin1_digit sample_update
                  (request [lit "5"]) sample_world 5 Hm Hs Hfit)).
Defined.

(** [/pomodoro abc] in the sample world: a job and the confirmation of 25
    minutes. *)
Lemma pomodoro_argument_not_a_number_witness :
  Z.of_N (clock sample_world 0) + 10 <= last_second /\
  length (job_queue
            (after (pomodoro_command latin1_digit sample_update
                      {| args := [lit "abc"] |} sample_world))) =
    S (length (job_queue sample_world)).
Proof.
  assert (Z.of_N (clock sample_world 0) + 10 <= last_second) as Hfit
    by (vm_compute; discriminate).
  split; [exact Hfit|].
  destruct (pomodoro_argument_not_a_number latin1_digit sample_update
              sample_world) as (_ & _ & _ & _ & H & _).
  exact (proj2 (H Hfit)).
Defined.

(** [/pomodoro 0]: no job; [/pomodoro 90]: one job. *)
Lemma pomodoro_minimum_delay_witness :
  (duration_minutes latin1_digit (args (request [lit "0"])) = Some 0 /\
   duration_seconds 0 < 5 /\
   job_queue (after (pomodoro_command latin1_digit sample_update
                       (request [lit "0"]) sample_world)) =
     job_queue sample_world) /\
  (duration_minutes latin1_digit (args (request [lit "90"])) = Some 90 /\
   5 <= duration_seconds 90 /\
   Z.of_N (clock sample_world 0) + duration_seconds 90 <= last_second /\
   exists job,
     job_queue (after (pomodoro_command latin1_digit sample_update
                         (request [lit "90"]) sample_world)) =
       job_queue sample_world ++ [job]).
Proof.
  assert (duration_minutes latin1_digit (args (request [lit "0"])) = Some 0)
    as Hm0 by reflexivity.
  assert (duration_seconds 0 < 5) as Hs0 by reflexivity.
  assert (duration_minutes latin1_digit (args (request [lit "90"])) = Some 90)
    as Hm by reflexivity.
  assert (5 <= duration_seconds 90) as Hs by (vm_compute; discriminate).
  assert (Z.of_N (clock sample_world 0) + duration_seconds 90 <= last_second)
    as Hfit by (vm_compute; discriminate).
  split.
  - split; [exact Hm0|]. split; [exact Hs0|].
    exact (proj1 (proj2 (proj1 (pomodoro_minimum_delay latin1_digit
                                  sample_update (request [lit "0"])
                                  sample_world 0 Hm0) Hs0))).
  - split; [exact Hm|]. split; [exact Hs|]. split; [exact Hfit|].
    exact (proj2 (proj1 (proj2 (pomodoro_minimum_delay latin1_digit
                                  sample_update (request [lit "90"])
                                  sample_world 90 Hm)) Hs Hfit)).
Defined.

(** [/pomodoro 5000000000] on 3 November 2026: the delay of 300000000000
    seconds is 5 seconds or more, the date of the job is past the year
    9999, [run_once] raises and no job is scheduled. For
    [/pomodoro 10000000000] this is so whatever the clock shows. *)
Lemma pomodoro_minimum_delay_counterexample :
  duration_minutes latin1_digit (args (request [lit "5000000000"])) =
    Some 5000000000 /\
  5 <= duration_seconds 5000000000 /\
  pomodoro_command latin1_digit sample_update (request [lit "5000000000"])
    sample_world = Raises (tick sample_world) /\
  job_queue (after (pomodoro_command latin1_digit sample_update
                      (request [lit "5000000000"]) sample_world)) =
    job_queue sample_world /\
  (~ exists job,
       job_queue (after (pomodoro_command latin1_digit sample_update
                           (request [lit "5000000000"]) sample_world)) =
         job_queue sample_world ++ [job]) /\
  5 <= duration_seconds 10000000000 /\
  forall (update : Update) (w : World),
    pomodoro_command latin1_digit update (request [lit "10000000000"]) w =
      Raises (tick w).
Proof.
  assert (forall (update : Update) (w : World),
            pomodoro_command latin1_digit update
              (request [lit "10000000000"]) w = Raises (tick w)) as Hall.
  { intros update w. apply pomodoro_overflow with (m := 10000000000);
      [reflexivity | vm_compute; discriminate |].
    change (duration_seconds 10000000000) with 600000000000.
    unfold last_second. lia. }
  split; [reflexivity|]. split; [vm_compute; discriminate|].
  assert (pomodoro_command latin1_digit sample_update
            (request [lit "5000000000"]) sample_world =
          Raises (tick sample_world)) as E.
  { apply pomodoro_overflow with (m := 5000000000);
      [reflexivity | vm_compute; discriminate | reflexivity]. }
  split; [exact E|]. rewrite E. split; [reflexivity|].
  split; [|split; [vm_compute; discriminate | exact Hall]].
  intros [job Hjob]. apply (f_equal length) in Hjob.
  rewrite length_app in Hjob. cbn in Hjob. lia.
Qed.

(** [/pomodoro] without argument: the job and the confirmation speak of
    25 minutes. *)
Lemma pomodoro_job_and_notification_witness :
  duration_minutes latin1_digit (args (request [])) = Some 25 /\
  5 <= duration_seconds 25 /\
  Z.of_N (clock sample_world 0) + duration_seconds 25 <= last_second /\
  exists job w',
    pomodoro_command latin1_digit sample_update (request []) sample_world =
      Returns w' /\
    job_queue w' = job_queue sample_world ++ [job] /\
    job_chat_id job = 42 /\
    job_data job = {[ lit "type" := lit "25-minute study" ]}.
Proof.
  assert (duration_minutes latin1_digit (args (request [])) = Some 25)
    as Hm by reflexivity.
  assert (5 <= duration_seconds 25) as Hs by (vm_compute; discriminate).
  assert (Z.of_N (clock sample_world 0) + duration_seconds 25 <= last_second)
    as Hfit by (vm_compute; discriminate).
  split; [exact Hm|]. split; [exact Hs|]. split; [exact Hfit|].
  destruct (pomodoro_job_and_notification latin1_digit sample_update
              (request []) sample_world 25 Hm Hs Hfit)
    as (job & w' & He & Hq & Hc & Hd & _).
  exists job, w'. split; [exact He|]. split; [exact Hq|].
  split; [exact Hc|]. exact Hd.
Defined.

(** [/tasks_add] followed by a space and a tab only, from a user without a
    list. *)
Lemma tasks_add_blank_witness :
  Py.strip (Py.join (lit " ") (args (request [[32%N; 9%N]]))) = [] /\
  user_tasks (tasks_add_command
                {| effective_user_id := 8; effective_chat_id := 8 |}
                (request [[32%N; 9%N]]) sample_world) !! 8 = None.
Proof.
  assert (Py.strip (Py.join (lit " ") (args (request [[32%N; 9%N]]))) = [])
    as Hb by reflexivity.
  split; [exact Hb|].
  destruct (tasks_add_blank
              {| effective_user_id := 8; effective_chat_id := 8 |}
              (request [[32%N; 9%N]]) sample_world Hb) as (_ & _ & _ & H).
  exact (eq_trans H eq_refl).
Defined.

(** [/tasks_add Write essay] for the user of the sample world: the third
    task. *)
Lemma tasks_add_appends_witness :
  Py.strip (Py.join (lit " ") (args (request [lit "Write"; lit "essay"])))
    <> [] /\
  user_tasks (tasks_add_command sample_update
                (request [lit "Write"; lit "essay"]) sample_world) =
    <[7 := [lit "Read Chapter 3"; lit "Do homework"; lit "Write essay"]]>
      (user_tasks sample_world).
Proof.
  assert (Py.strip (Py.join (lit " ")
            (args (request [lit "Write"; lit "essay"]))) <> [])
    as Hne by (vm_compute; discriminate).
  split; [exact Hne|].
  exact (proj1 (tasks_add_appends sample_update
                  (request [lit "Write"; lit "essay"]) (request [])
                  sample_world Hne)).
Defined.

(** [/tasks_done 1] on the two tasks of the sample world. *)
Lemma tasks_done_removes_witness :
  exists (before : list pystr) (completed : pystr) (after : list pystr),
    [lit "Read Chapter 3"; lit "Do homework"] = before ++ completed :: after /\
    Z.of_nat (length before) = 1 - 1 /\
    user_tasks (tasks_done_command latin1_digit sample_update
                  (request [lit "1"]) sample_world) =
      <[7 := before ++ after]> (user_tasks sample_world).
Proof.
  destruct (tasks_done_removes latin1_digit sample_update
              (request [lit "1"]) sample_world (lit "1") [] 1
              [lit "Read Chapter 3"; lit "Do homework"])
    as (before & completed & after & H1 & H2 & H3 & _).
  - reflexivity.
  - reflexivity.
  - reflexivity.
  - reflexivity.
  - vm_compute. split; discriminate.
  - exists before, completed, after. split; [exact H1|]. split; [exact H2|].
    exact H3.
Defined.

(** [/tasks_done 9] on the two tasks of the sample world. *)
Lemma tasks_done_failures_witness :
  tasks_done_command latin1_digit sample_update (request [lit "9"])
    sample_world =
    reply_text sample_update done_missing_text None sample_world /\
  user_tasks (tasks_done_command latin1_digit sample_update
                (request [lit "9"]) sample_world) =
    user_tasks sample_world.
Proof.
  destruct (tasks_done_failures latin1_digit sample_update
              (request [lit "9"]) sample_world (lit "9") [] 9)
    as [_ H].
  - reflexivity.
  - reflexivity.
  - reflexivity.
  - apply (H [lit "Read Chapter 3"; lit "Do homework"]).
    + reflexivity.
    + discriminate.
    + vm_compute. intros [_ Hle]. apply Hle. reflexivity.
Defined.

(** The user 8 when the user 7 adds, lists and completes. *)
Lemma tasks_other_users_witness :
  8 <> effective_user_id sample_update /\
  user_tasks (tasks_add_command sample_update (request [lit "Revise"])
                sample_world) !! 8 = user_tasks sample_world !! 8.
Proof.
  assert (8 <> effective_user_id sample_update) as Hne by discriminate.
  split; [exact Hne|].
  exact (proj1 (tasks_other_users latin1_digit sample_update
                  (request [lit "Revise"]) sample_world 8 Hne)).
Defined.

(** ** Further facts about trimming *)

Lemma lstrip_head (s : pystr) (c : N) :
  head (Py.lstrip s) = Some c -> Py.isspace c = false.
Proof.
  induction s as [|x s IH]; simpl; [done|].
  destruct (Py.isspace x) eqn:Hx; [done|]. by intros [= <-].
Qed.

Lemma lstrip_suffix (s : pystr) : exists p, s = p ++ Py.lstrip s.
Proof.
  induction s as [|x s [p Hp]]; simpl; [by exists []|].
  destruct (Py.isspace x).
  - exists (x :: p). by rewrite <- app_comm_cons, <- Hp.
  - by exists [].
Qed.

Lemma rstrip_prefix (s : pystr) : exists q, s = Py.rstrip s ++ q.
Proof.
  unfold Py.rstrip. destruct (lstrip_suffix (reverse s)) as [p Hp].
  exists (reverse p).
  rewrite <- reverse_app, <- Hp. by rewrite reverse_involutive.
Qed.

Lemma rstrip_last (s : pystr) (c : N) :
  last (Py.rstrip s) = Some c -> Py.isspace c = false.
Proof.
  unfold Py.rstrip. rewrite last_reverse. apply lstrip_head.
Qed.

(** Trimming twice is trimming once. *)
Lemma strip_idemp (s : pystr) : Py.strip (Py.strip s) = Py.strip s.
Proof.
  apply PyFacts.strip_ends; intros c Hc.
  - unfold Py.strip in Hc.
    destruct (rstrip_prefix (Py.lstrip s)) as [q Hq].
    apply (lstrip_head s). rewrite Hq.
    destruct (Py.rstrip (Py.lstrip s)); [done|]. exact Hc.
  - by apply (rstrip_last (Py.lstrip s)).
Qed.

(** ** The storage path *)

(** X1. The path of a user reads back as the user id, so the paths of two
    users are the same only when the users are. *)
Theorem get_task_path_round_trip (unicode_digit : char -> digit_class)
    (user_id other : Z) :
  Py.int unicode_digit (get_task_path user_id) = Some user_id /\
  (get_task_path user_id = get_task_path other <-> user_id = other).
Proof.
  split; [apply PyFacts.int_str|]. split; [|by intros ->].
  intros E. apply (f_equal (Py.int unicode_digit)) in E.
  unfold get_task_path in E. rewrite !PyFacts.int_str in E. by injection E.
Qed.

(** ** More on the focus timer *)

Section TimerMore.

Variable unicode_digit : char -> digit_class.

(** X2. The request whose first word is the decimal writing of a natural
    number [m] asks for [m] minutes, whatever words follow: for 0 it is
    refused with the minimum-duration message; otherwise, when the date
    of the job is in the calendar, the job is scheduled for [m] with the
    delay of [m] and confirmed, and when it is not, [run_once] raises and
    nothing is scheduled or sent by the handler. *)
Theorem pomodoro_decimal_argument (update : Update) (rest : list pystr)
    (w : World) (m : Z) :
  0 <= m ->
  duration_minutes unicode_digit (Py.str m :: rest) = Some m /\
  pomodoro_command unicode_digit update (request (Py.str m :: rest)) w =
    if decide (m = 0) then Returns (reply_text update minimum_text None w)
    else if decide (Z.of_N (clock w 0) +
                    (if decide (m = 25) then 10 else m * 60) <= last_second)
    then
      Returns
        (reply_text update (timer_set_text m) None
           (enqueue
              {| job_callback := AlarmCallback;
                 job_when := if decide (m = 25) then 10 else m * 60;
                 job_chat_id := effective_chat_id update;
                 job_name := Py.str (effective_chat_id update);
                 job_data :=
                   {[ lit "type" := Py.str m ++ lit "-minute study" ]} |}
              (tick w)))
    else Raises (tick w).
Proof.
  intros Hm.
  assert (duration_minutes unicode_digit (Py.str m :: rest) = Some m) as E.
  { unfold duration_minutes.
    by rewrite PyFacts.isdigit_str, PyFacts.int_str. }
  split; [exact E|].
  assert (duration_seconds m = if decide (m = 25) then 10 else m * 60) as Es.
  { unfold duration_seconds. case_decide as H.
    - by rewrite H.
    - by apply Z.eqb_neq in H as ->. }
  destruct (decide (m = 0)) as [H0|H0].
  { apply (pomodoro_rejected unicode_digit update
             (request (Py.str m :: rest)) w m E).
    by rewrite H0. }
  assert (5 <= duration_seconds m) as Hs.
  { rewrite Es. case_decide; lia. }
  destruct (decide (Z.of_N (clock w 0) +
                    (if decide (m = 25) then 10 else m * 60) <= last_second))
    as [Hfit|Hlate].
  - rewrite (pomodoro_accepted unicode_digit update
               (request (Py.str m :: rest)) w m E Hs)
      by by rewrite Es.
    unfold study_job. by rewrite Es.
  - apply (pomodoro_overflow unicode_digit update
             (request (Py.str m :: rest)) w m E Hs).
    rewrite Es. lia.
Qed.

(** X3. A first word made of digits that [int] refuses is the one request
    answered with the usage message; nothing is scheduled. *)
Theorem pomodoro_usage (update : Update) (context : Context) (w : World)
    (a : pystr) (rest : list pystr) :
  args context = a :: rest ->
  Py.isdigit unicode_digit a = true ->
  Py.int unicode_digit a = None ->
  pomodoro_command unicode_digit update context w =
    Returns (reply_text update pomodoro_usage_text None w) /\
  job_queue (after (pomodoro_command unicode_digit update context w)) =
    job_queue w.
Proof.
  intros Hargs Hd Hi.
  assert (pomodoro_command unicode_digit update context w =
          Returns (reply_text update pomodoro_usage_text None w)) as E.
  { unfold pomodoro_command, duration_minutes. by rewrite Hargs, Hd, Hi. }
  by rewrite E.
Qed.

(** X4. Whatever the request, a job that [pomodoro_command] schedules
    waits 10 seconds or a whole number of minutes, never less than 10
    seconds and never the 1500 seconds of 25 minutes. *)
Theorem pomodoro_delay_bounds (update : Update) (context : Context)
    (w : World) (job : Job) :
  job_queue (after (pomodoro_command unicode_digit update context w)) =
    job_queue w ++ [job] ->
  10 <= job_when job /\
  job_when job <> 1500 /\
  (job_when job = 10 \/ exists m, 0 < m /\ job_when job = m * 60).
Proof.
  intros Hq.
  destruct (pomodoro_job_queue unicode_digit update context w)
    as [E|(m & Hm & _ & E)].
  { rewrite E in Hq. apply (f_equal length) in Hq.
    rewrite length_app in Hq. simpl in Hq. lia. }
  rewrite E in Hq. apply app_inj_tail in Hq as [_ <-].
  cbn [study_job job_when].
  unfold duration_seconds. destruct (m =? 25) eqn:E25.
  - repeat split; [lia | lia | by left].
  - apply Z.eqb_neq in E25. repeat split; [lia | lia |].
    right. by exists m.
Qed.

(** X5. Two accepted requests from one chat, each with a delay of 5
    seconds or more and its date in the calendar at the reading of the
    clock it takes, leave two jobs in the queue, of the same name; running
    the first leaves the second waiting. *)
Theorem pomodoro_twice (update : Update) (first second : Context) (w : World)
    (m1 m2 : Z) :
  duration_minutes unicode_digit (args first) = Some m1 ->
  duration_minutes unicode_digit (args second) = Some m2 ->
  5 <= duration_seconds m1 ->
  5 <= duration_seconds m2 ->
  Z.of_N (clock w 0) + duration_seconds m1 <= last_second ->
  Z.of_N (clock w 1) + duration_seconds m2 <= last_second ->
  exists w1 w2 job1 job2 fired,
    pomodoro_command unicode_digit update first w = Returns w1 /\
    pomodoro_command unicode_digit update second w1 = Returns w2 /\
    job_queue w2 = job_queue w ++ [job1; job2] /\
    job_name job1 = job_name job2 /\
    job_when job1 = duration_seconds m1 /\
    job_when job2 = duration_seconds m2 /\
    fire (length (job_queue w)) w2 = Some fired /\
    job_queue fired = job_queue w ++ [job2].
Proof.
  intros H1 H2 Hs1 Hs2 Hfit1 Hfit2.
  pose proof (pomodoro_accepted unicode_digit update first w m1 H1 Hs1 Hfit1)
    as E1.
  set (w1 := reply_text update (timer_set_text m1) None
               (enqueue (study_job (effective_chat_id update) m1) (tick w)))
    in E1.
  pose proof (pomodoro_accepted unicode_digit update second w1 m2 H2 Hs2
                Hfit2) as E2.
  set (w2 := reply_text update (timer_set_text m2) None
               (enqueue (study_job (effective_chat_id update) m2) (tick w1)))
    in E2.
  assert (job_queue w2 =
          job_queue w ++ [study_job (effective_chat_id update) m1;
                          study_job (effective_chat_id update) m2]) as Hq.
  { subst w2 w1. unfold reply_text, send_message, enqueue, tick.
    cbn [job_queue]. by rewrite <- app_assoc. }
  destruct (fire_alarm (length (job_queue w)) w2
              (study_job (effective_chat_id update) m1) (study_label m1))
    as (fired & Hf & Hd & _).
  { rewrite Hq. by apply list_lookup_middle. }
  { done. }
  { apply lookup_singleton_eq. }
  exists w1, w2, (study_job (effective_chat_id update) m1),
    (study_job (effective_chat_id update) m2), fired.
  split; [exact E1|]. split; [exact E2|]. split; [exact Hq|].
  repeat split; [exact Hf|].
  rewrite Hd, Hq, delete_take_drop, take_app_length.
  rewrite drop_app_ge by lia.
  replace (S (length (job_queue w)) - length (job_queue w))%nat with 1%nat
    by lia.
  done.
Qed.

End TimerMore.

(** ** More on the to-do list *)

(** The loop of the listing, written without its accumulator. *)
Lemma list_lines_concat (message : pystr) (i : Z) (tasks : list pystr) :
  list_lines message i tasks =
    message ++
    concat (imap (fun n task =>
                    Py.str (i + Z.of_nat n) ++ lit ". " ++ task ++ [10%N])
              tasks).
Proof.
  revert message i. induction tasks as [|t tasks IH]; intros message i.
  - simpl. by rewrite app_nil_r.
  - cbn [list_lines imap concat]. rewrite IH, Z.add_0_r, <- !app_assoc.
    assert (imap (fun n task =>
                    Py.str (i + 1 + Z.of_nat n) ++ lit ". " ++ task ++ [10%N])
              tasks =
            imap ((fun n task =>
                     Py.str (i + Z.of_nat n) ++ lit ". " ++ task ++ [10%N])
                  ∘ S) tasks) as ->; [|done].
    apply imap_ext. intros n x _. simpl. do 2 f_equal. lia.
Qed.

(** X6. The listing of a list that is not empty is the heading followed
    by one line per task, in the order of the list, the task at position
    [n] (from 0) under the number [n + 1]; the world is otherwise left as
    it is. *)
Theorem tasks_list_numbered (update : Update) (context : Context)
    (w : World) (tasks : list pystr) :
  user_tasks w !! effective_user_id update = Some tasks ->
  tasks <> [] ->
  tasks_list_command update context w =
    reply_text update
      (list_header ++
       concat (imap (fun n task =>
                       Py.str (Z.of_nat n + 1) ++ lit ". " ++ task ++ [10%N])
                 tasks))
      (Some (lit "Markdown")) w.
Proof.
  intros Hu Hne. unfold tasks_list_command. rewrite Hu.
  destruct tasks as [|t ts] eqn:E; [done|]. rewrite <- E.
  rewrite list_lines_concat. do 3 f_equal.
  apply imap_ext. intros n x _. simpl. do 2 f_equal. lia.
Qed.

Section DoneMore.

Variable unicode_digit : char -> digit_class.

(** X7. Without a first word, or with one that is not made of digits,
    [tasks_done_command] only sends its usage message. *)
Theorem tasks_done_usage (update : Update) (context : Context) (w : World) :
  (forall a, head (args context) = Some a ->
             Py.isdigit unicode_digit a = false) ->
  tasks_done_command unicode_digit update context w =
    reply_text update done_usage_text None w.
Proof.
  intros H. unfold tasks_done_command.
  destruct (args context) as [|a rest]; [done|].
  by rewrite (H a).
Qed.

(** X8. A first word made of digits that [int] refuses is answered with
    the error message, and the dictionary is left as it is. *)
Theorem tasks_done_refused_number (update : Update) (context : Context)
    (w : World) (a : pystr) (rest : list pystr) :
  args context = a :: rest ->
  Py.isdigit unicode_digit a = true ->
  Py.int unicode_digit a = None ->
  tasks_done_command unicode_digit update context w =
    reply_text update done_error_text None w.
Proof.
  intros Hargs Hd Hi. unfold tasks_done_command.
  by rewrite Hargs, Hd, Hi.
Qed.

(** X9. Whatever the request, [tasks_done_command] sends one message and
    either leaves the dictionary as it is or takes exactly one task out of
    the list of the user; the entry of the user stays in the dictionary. *)
Theorem tasks_done_at_most_one (update : Update) (context : Context)
    (w : World) :
  let user_id := effective_user_id update in
  let w' := tasks_done_command unicode_digit update context w in
  (exists message, sent w' = sent w ++ [message]) /\
  job_queue w' = job_queue w /\
  (user_tasks w' = user_tasks w \/
   exists (tasks : list pystr) (i : nat) (task : pystr),
     user_tasks w !! user_id = Some tasks /\
     tasks !! i = Some task /\
     user_tasks w' = <[user_id := delete i tasks]> (user_tasks w) /\
     length (delete i tasks) = pred (length tasks)).
Proof.
  intros user_id w'. subst user_id w'. unfold tasks_done_command.
  repeat (case_match; try (split; [by eexists | split; [done | by left]])).
  split; [by eexists|]. split; [done|]. right.
  eexists _, _, _. split; [reflexivity|]. split; [eassumption|].
  split; [done|]. rewrite length_delete by by eexists. lia.
Qed.

(** X10. The number a listing shows beside a task, given as first word,
    takes that task out and names it in the reply. *)
Theorem tasks_done_listed_number (update : Update) (rest : list pystr)
    (w : World) (tasks : list pystr) (i : nat) (task : pystr) :
  user_tasks w !! effective_user_id update = Some tasks ->
  tasks !! i = Some task ->
  tasks_done_command unicode_digit update
    (request (Py.str (Z.of_nat i + 1) :: rest)) w =
    reply_text update (completed_text task) (Some (lit "Markdown"))
      (set_user_tasks
         (<[effective_user_id update := delete i tasks]> (user_tasks w)) w).
Proof.
  intros Hu Hi.
  rewrite (tasks_done_number unicode_digit update
             (request (Py.str (Z.of_nat i + 1) :: rest)) w
             (Py.str (Z.of_nat i + 1)) rest (Z.of_nat i + 1));
    [| done | apply PyFacts.isdigit_str; lia | apply PyFacts.int_str].
  rewrite Hu. destruct tasks as [|t ts] eqn:E; [done|]. rewrite <- E in *.
  replace (Z.to_nat (Z.of_nat i + 1 - 1)) with i by lia.
  rewrite Hi.
  by replace (1 <=? Z.of_nat i + 1) with true
    by (symmetry; apply Z.leb_le; lia).
Qed.

(** X11. Completing the task just added, by the count its reply reports,
    gives the user back the list there was before, an absent list having
    become an empty one; the reply names the text that was added. *)
Theorem tasks_add_then_done (update : Update) (context : Context)
    (w : World) :
  let user_id := effective_user_id update in
  let task_text := Py.strip (Py.join (lit " ") (args context)) in
  let old := default [] (user_tasks w !! user_id) in
  let w1 := tasks_add_command update context w in
  let w2 := tasks_done_command unicode_digit update
              (request [Py.str (Z.of_nat (length old) + 1)]) w1 in
  task_text <> [] ->
  user_tasks w2 = <[user_id := old]> (user_tasks w) /\
  user_tasks w2 !! user_id = Some old /\
  (is_Some (user_tasks w !! user_id) -> user_tasks w2 = user_tasks w) /\
  sent w2 = sent w1 ++
    [{| msg_chat_id := effective_chat_id update;
        msg_text := completed_text task_text;
        msg_parse_mode := Some (lit "Markdown") |}].
Proof.
  intros user_id task_text old w1 w2 Hne.
  assert (user_tasks w1 = <[user_id := old ++ [task_text]]> (user_tasks w))
    as H1.
  { subst w1. by rewrite (tasks_add_accepted update context w Hne). }
  assert (w2 = reply_text update (completed_text task_text)
                 (Some (lit "Markdown"))
                 (set_user_tasks
                    (<[user_id := delete (length old) (old ++ [task_text])]>
                       (user_tasks w1)) w1)) as H2.
  { subst w2. apply tasks_done_listed_number.
    - fold user_id. rewrite H1. apply lookup_insert_eq.
    - by apply list_lookup_middle. }
  assert (delete (length old) (old ++ [task_text]) = old) as Hd.
  { rewrite delete_take_drop, take_app_length, drop_app_ge by lia.
    replace (S (length old) - length old)%nat with 1%nat by lia.
    simpl. apply app_nil_r. }
  rewrite Hd in H2. rewrite H2, user_tasks_reply_text.
  cbn [set_user_tasks user_tasks]. rewrite H1, insert_insert_eq.
  split; [done|]. split; [apply lookup_insert_eq|]. split; [|done].
  intros [tasks Hu]. apply insert_id. subst old. by rewrite Hu.
Qed.

End DoneMore.

(** ** The application as a whole *)

Section ApplicationFacts.

Variable unicode_digit : char -> digit_class.

(** How a request for a timer ends: with a reply only, with a job and its
    confirmation, or with the exception of [run_once] after the clock was
    read. *)
Lemma pomodoro_cases (update : Update) (context : Context) (w : World) :
  (exists text,
     pomodoro_command unicode_digit update context w =
       Returns (reply_text update text None w)) \/
  (exists m,
     0 < m /\
     pomodoro_command unicode_digit update context w =
       Returns (reply_text update (timer_set_text m) None
                  (enqueue (study_job (effective_chat_id update) m)
                     (tick w)))) \/
  pomodoro_command unicode_digit update context w = Raises (tick w).
Proof.
  destruct (duration_minutes unicode_digit (args context)) as [m|] eqn:E.
  - pose proof (duration_minutes_nonneg unicode_digit _ _ E) as Hm.
    destruct (Z.lt_ge_cases (duration_seconds m) 5) as [Hs|Hs].
    { left. eexists.
      apply (pomodoro_rejected unicode_digit update context w m E Hs). }
    destruct (Z.le_gt_cases (Z.of_N (clock w 0) + duration_seconds m)
                last_second) as [Hfit|Hlate].
    + right. left. exists m. split.
      * destruct (decide (m = 0)) as [->|]; [|lia]. by vm_compute in Hs.
      * apply (pomodoro_accepted unicode_digit update context w m E Hs Hfit).
    + right. right.
      apply (pomodoro_overflow unicode_digit update context w m E Hs Hlate).
  - left. eexists. unfold pomodoro_command. by rewrite E.
Qed.

(** Every event that is handled sends one message. *)
Lemma step_sent (e : Event) (w w' : World) :
  step unicode_digit e w = Some w' ->
  exists message, sent w' = sent w ++ [message].
Proof.
  destruct e; cbn [step];
    try (unfold help_command, start_command, tasks_add_command,
           tasks_list_command, tasks_done_command, quote_command,
           get_motivational_quote, text_message_handler, choice, fire,
           alarm_callback, error_handler;
         repeat case_match; intros [= <-]; by eexists).
  - destruct (pomodoro_cases update context w)
      as [[text ->]|[(m & _ & ->)| ->]]; intros [= <-]; by eexists.
  - unfold quote_command, get_motivational_quote, choice.
    destruct (quotes !! _); intros [= <-]; by eexists.
  - unfold text_message_handler, choice.
    destruct (response_phrases !! _); intros [= <-]; by eexists.
Qed.

(** X12. A run of events sends exactly one message per event, after the
    messages there were. *)
Theorem run_messages (events : list Event) (w w' : World) :
  run unicode_digit events w = Some w' ->
  exists messages,
    sent w' = sent w ++ messages /\ length messages = length events.
Proof.
  revert w. induction events as [|e events IH]; intros w; cbn [run].
  - intros [= <-]. exists []. by rewrite app_nil_r.
  - destruct (step unicode_digit e w) as [w1|] eqn:E; [|done].
    intros Hrun. destruct (step_sent e w w1 E) as [message Hm].
    destruct (IH w1 Hrun) as (messages & Hs & Hl).
    exists (message :: messages). rewrite Hs, Hm, <- app_assoc.
    split; [done|]. simpl. by rewrite Hl.
Qed.

(** X13. The to-do list and the timer work on separate data: only
    [tasks_add_command] and [tasks_done_command] may change the
    dictionary, only [pomodoro_command] and a job that runs may change the
    job queue. *)
Theorem step_separate_data (e : Event) (w w' : World) :
  step unicode_digit e w = Some w' ->
  (task_event e = false -> user_tasks w' = user_tasks w) /\
  (timer_event e = false -> job_queue w' = job_queue w).
Proof.
  destruct e; cbn [step task_event timer_event];
    try (unfold help_command, start_command, tasks_add_command,
           tasks_list_command, tasks_done_command, quote_command,
           get_motivational_quote, text_message_handler, choice, fire,
           alarm_callback, error_handler;
         repeat case_match; intros [= <-]; by split).
  - destruct (pomodoro_cases update context w)
      as [[text ->]|[(m & _ & ->)| ->]]; intros [= <-]; by split.
  - unfold quote_command, get_motivational_quote, choice.
    destruct (quotes !! _); intros [= <-]; by split.
  - unfold text_message_handler, choice.
    destruct (response_phrases !! _); intros [= <-]; by split.
Qed.

(** What an event may do to the dictionary. *)
Lemma step_user_tasks (e : Event) (w w' : World) :
  step unicode_digit e w = Some w' ->
  user_tasks w' = user_tasks w \/
  exists (user_id : Z) (tasks : list pystr),
    user_tasks w' = <[user_id := tasks]> (user_tasks w) /\
    ((exists text, trimmed text /\
        tasks = default [] (user_tasks w !! user_id) ++ [text]) \/
     (exists old i, user_tasks w !! user_id = Some old /\
        tasks = delete i old)).
Proof.
  intros Hstep. destruct (task_event e) eqn:Et.
  2: { left. by apply (step_separate_data e w w' Hstep). }
  destruct e; try discriminate; cbn [step] in Hstep;
    injection Hstep as <-.
  - destruct (Py.strip (Py.join (lit " ") (args context))) as [|c s] eqn:E.
    + left. unfold tasks_add_command. by rewrite E.
    + right. rewrite tasks_add_accepted by by rewrite E.
      eexists _, _. split; [reflexivity|]. left.
      eexists. split; [|reflexivity]. split; [by rewrite E|].
      apply strip_idemp.
  - destruct (tasks_done_at_most_one unicode_digit update context w)
      as (_ & _ & [H|(tasks & i & task & Hu & _ & H & _)]); [by left|].
    right. eexists _, _. split; [exact H|]. right. by eexists _, _.
Qed.

(** X14. The entry of a user, once in the dictionary, stays there through
    every run. *)
Theorem run_keeps_users (events : list Event) (w w' : World) :
  run unicode_digit events w = Some w' ->
  dom (user_tasks w) ⊆ dom (user_tasks w').
Proof.
  revert w. induction events as [|e events IH]; intros w; cbn [run].
  - by intros [= <-].
  - destruct (step unicode_digit e w) as [w1|] eqn:E; [|done].
    intros Hrun. etrans; [|by apply IH].
    destruct (step_user_tasks e w w1 E) as [->|(u & tasks & -> & _)]; [done|].
    rewrite dom_insert_L. set_solver.
Qed.

Lemma step_well_kept (e : Event) (w w' : World) :
  well_kept w -> step unicode_digit e w = Some w' -> well_kept w'.
Proof.
  intros [Htasks Hjobs] Hstep. split.
  - intros v l Hv.
    destruct (step_user_tasks e w w' Hstep)
      as [E|(u & tasks & E & Hshape)]; rewrite E in Hv; [by eapply Htasks|].
    destruct (decide (u = v)) as [->|Hne].
    2: { rewrite lookup_insert_ne in Hv by done. by eapply Htasks. }
    rewrite lookup_insert_eq in Hv. injection Hv as <-.
    destruct Hshape as [(text & Ht & ->)|(old & i & Hold & ->)].
    + apply Forall_app. split; [|by constructor].
      destruct (user_tasks w !! v) eqn:Ev; [by eapply Htasks | constructor].
    + apply Forall_delete. by eapply Htasks.
  - destruct (timer_event e) eqn:Et.
    2: { by rewrite (proj2 (step_separate_data e w w' Hstep) Et). }
    destruct e; try discriminate; cbn [step] in Hstep.
    + destruct (pomodoro_cases update context w)
        as [[text E]|[(m & Hm & E)|E]]; rewrite E in Hstep;
        injection Hstep as <-; try done.
      cbn [reply_text send_message enqueue job_queue tick].
      apply Forall_app. split; [done|]. constructor; [|constructor].
      by exists m.
    + unfold fire, alarm_callback in Hstep.
      repeat case_match; try discriminate. injection Hstep as <-.
      cbn [job_queue send_message]. by apply Forall_delete.
Qed.

Lemma run_well_kept (events : list Event) (w w' : World) :
  well_kept w -> run unicode_digit events w = Some w' -> well_kept w'.
Proof.
  revert w. induction events as [|e events IH]; intros w Hw; cbn [run].
  - by intros [= <-].
  - destruct (step unicode_digit e w) as [w1|] eqn:E; [|done].
    apply IH. by eapply step_well_kept.
Qed.

Lemma initial_well_kept (draws : nat -> nat) (readings : nat -> N) :
  well_kept (initial_world draws readings).
Proof.
  split; [|constructor]. intros u l. cbn [initial_world user_tasks].
  by rewrite lookup_empty.
Qed.

(** X15. After any run from the start, every task of every list is a
    text that is not empty and has no whitespace at either end. *)
Theorem run_tasks_trimmed (draws : nat -> nat) (readings : nat -> N)
    (events : list Event) (w : World) (user_id : Z) (tasks : list pystr) :
  run unicode_digit events (initial_world draws readings) = Some w ->
  user_tasks w !! user_id = Some tasks ->
  Forall trimmed tasks.
Proof.
  intros Hrun. by apply (run_well_kept events _ w (initial_well_kept _ _) Hrun).
Qed.

(** X16. After any run from the start every pending job is a job of the
    timer, and the job queue can run each of them: [alarm_callback] finds
    the label under the key it reads, the job leaves the queue and one
    message with that label goes to the chat of the job. *)
Theorem run_jobs_can_run (draws : nat -> nat) (readings : nat -> N)
    (events : list Event) (w : World) :
  run unicode_digit events (initial_world draws readings) = Some w ->
  Forall timer_job (job_queue w) /\
  forall (i : nat) (job : Job),
    job_queue w !! i = Some job ->
    exists (label : pystr) (w' : World),
      job_data job !! lit "type" = Some label /\
      fire i w = Some w' /\
      job_queue w' = delete i (job_queue w) /\
      user_tasks w' = user_tasks w /\
      sent w' = sent w ++
        [{| msg_chat_id := job_chat_id job;
            msg_text :=
              lit "**DING DING!** Your " ++ label ++
              lit " timer is finished! Time for a well-deserved break or move on to the next task.";
            msg_parse_mode := Some (lit "Markdown") |}].
Proof.
  intros Hrun.
  destruct (run_well_kept events _ w (initial_well_kept _ _) Hrun)
    as [_ Hjobs].
  split; [done|]. intros i job Hjob.
  destruct (proj1 (Forall_lookup _ _) Hjobs i job Hjob)
    as (m & _ & Hcb & _ & _ & Hdata).
  assert (job_data job !! type_key = Some (study_label m)) as Hlabel.
  { rewrite Hdata. apply lookup_singleton_eq. }
  destruct (fire_alarm i w job (study_label m) Hjob Hcb Hlabel)
    as (w' & ? & ? & ? & ?).
  by exists (study_label m), w'.
Qed.

(** X19. A request of 5 seconds or more whose date is past the calendar
    makes [run_once] raise: the handler schedules nothing and sends
    nothing, and what the chat gets is the message of [error_handler];
    the dictionary and the job queue are as they were. *)
Theorem pomodoro_past_calendar (update : Update) (context : Context)
    (w : World) (m : Z) :
  duration_minutes unicode_digit (args context) = Some m ->
  5 <= duration_seconds m ->
  last_second < Z.of_N (clock w 0) + duration_seconds m ->
  (exists w',
     pomodoro_command unicode_digit update context w = Raises w' /\
     job_queue w' = job_queue w /\ sent w' = sent w) /\
  exists w',
    step unicode_digit (OnPomodoro update context) w = Some w' /\
    user_tasks w' = user_tasks w /\
    job_queue w' = job_queue w /\
    sent w' = sent w ++
      [{| msg_chat_id := effective_chat_id update;
          msg_text :=
            lit "Oops! Something went wrong. Check the console for details or try again.";
          msg_parse_mode := None |}].
Proof.
  intros Hm Hs Hlate.
  pose proof (pomodoro_overflow unicode_digit update context w m Hm Hs Hlate)
    as E.
  split; [by exists (tick w)|].
  cbn [step]. rewrite E. by eexists.
Qed.

End ApplicationFacts.

(** ** Messages that are no command *)

(** X17. Whatever the generator draws, [text_message_handler] answers
    with one of its four phrases, as plain text, and leaves the dictionary
    and the job queue as they are. *)
Theorem text_message_reply (update : Update) (context : Context) (w : World) :
  length response_phrases = 4%nat /\
  exists (phrase : pystr) (w' : World),
    phrase ∈ response_phrases /\
    text_message_handler update context w = Some w' /\
    sent w' = sent w ++
      [{| msg_chat_id := effective_chat_id update; msg_text := phrase;
          msg_parse_mode := None |}] /\
    user_tasks w' = user_tasks w /\
    job_queue w' = job_queue w.
Proof.
  split; [done|]. unfold text_message_handler, choice.
  destruct (lookup_lt_is_Some_2 response_phrases
              (random_state w 0 `mod` length response_phrases)%nat) as [q Hq].
  { by apply Nat.mod_upper_bound. }
  rewrite Hq. exists q. eexists. split; [by eapply list_elem_of_lookup_2|].
  by split; [reflexivity|].
Qed.

(** ** The further statements at sample requests *)

(** [/pomodoro 90 please]: a job after 5400 seconds. *)
Lemma pomodoro_decimal_argument_witness :
  0 <= 90 /\
  duration_minutes latin1_digit (Py.str 90 :: [lit "please"]) = Some 90.
Proof.
  assert (0 <= 90) as Hm by discriminate.
  split; [exact Hm|].
  exact (proj1 (pomodoro_decimal_argument latin1_digit sample_update
                  [lit "please"] sample_world 90 Hm)).
Defined.

(** [/pomodoro] followed by a superscript two. *)
Lemma pomodoro_usage_witness :
  pomodoro_command latin1_digit sample_update (request [[0xB2%N]])
    sample_world =
    Returns (reply_text sample_update pomodoro_usage_text None sample_world) /\
  job_queue (after (pomodoro_command latin1_digit sample_update
                      (request [[0xB2%N]]) sample_world)) =
    job_queue sample_world.
Proof.
  apply (pomodoro_usage latin1_digit sample_update (request [[0xB2%N]])
           sample_world [0xB2%N] []); reflexivity.
Defined.

(** The job of [/pomodoro 5]. *)
Lemma pomodoro_delay_bounds_witness :
  10 <= 300 /\ 300 <> 1500 /\
  (300 = 10 \/ exists m, 0 < m /\ 300 = m * 60).
Proof.
  exact (pomodoro_delay_bounds latin1_digit sample_update
           (request [lit "5"]) sample_world
           {| job_callback := AlarmCallback; job_when := 300;
              job_chat_id := 42; job_name := lit "42";
              job_data := {[ type_key := study_label 5 ]} |}
           eq_refl).
Defined.

(** [/pomodoro 5] and then [/pomodoro] from the same chat. *)
Lemma pomodoro_twice_witness :
  exists w1 w2 job1 job2 fired,
    pomodoro_command latin1_digit sample_update (request [lit "5"])
      sample_world = Returns w1 /\
    pomodoro_command latin1_digit sample_update (request []) w1 =
      Returns w2 /\
    job_queue w2 = job_queue sample_world ++ [job1; job2] /\
    job_name job1 = job_name job2 /\
    job_when job1 = duration_seconds 5 /\
    job_when job2 = duration_seconds 25 /\
    fire (length (job_queue sample_world)) w2 = Some fired /\
    job_queue fired = job_queue sample_world ++ [job2].
Proof.
  apply (pomodoro_twice latin1_digit sample_update (request [lit "5"])
           (request []) sample_world 5 25);
    [reflexivity | reflexivity | discriminate | discriminate
    | vm_compute; discriminate | vm_compute; discriminate].
Defined.

(** The listing of the two tasks of the sample world. *)
Lemma tasks_list_numbered_witness :
  msg_text <$> sent (tasks_list_command sample_update (request [])
                       sample_world) =
    [list_header ++ lit "1. Read Chapter 3" ++ [10%N] ++
     lit "2. Do homework" ++ [10%N]].
Proof.
  rewrite (tasks_list_numbered sample_update (request []) sample_world
             [lit "Read Chapter 3"; lit "Do homework"]);
    [reflexivity | reflexivity | discriminate].
Defined.

(** [/tasks_done first]. *)
Lemma tasks_done_usage_witness :
  tasks_done_command latin1_digit sample_update (request [lit "first"])
    sample_world =
    reply_text sample_update done_usage_text None sample_world.
Proof.
  apply (tasks_done_usage latin1_digit sample_update
           (request [lit "first"]) sample_world).
  intros a Ha. injection Ha as <-. reflexivity.
Defined.

(** [/tasks_done] followed by a superscript two. *)
Lemma tasks_done_refused_number_witness :
  tasks_done_command latin1_digit sample_update (request [[0xB2%N]])
    sample_world =
    reply_text sample_update done_error_text None sample_world.
Proof.
  apply (tasks_done_refused_number latin1_digit sample_update
           (request [[0xB2%N]]) sample_world [0xB2%N] []); reflexivity.
Defined.

(** [/tasks_done 2] on the two tasks of the sample world. *)
Lemma tasks_done_listed_number_witness :
  user_tasks (tasks_done_command latin1_digit sample_update
                (request [lit "2"]) sample_world) !! 7 =
    Some [lit "Read Chapter 3"].
Proof.
  exact (eq_trans
           (f_equal (fun w => user_tasks w !! 7)
              (tasks_done_listed_number latin1_digit sample_update []
                 sample_world [lit "Read Chapter 3"; lit "Do homework"] 1
                 (lit "Do homework") eq_refl eq_refl))
           eq_refl).
Defined.

(** [/tasks_add Write essay] and [/tasks_done 3] on the sample world. *)
Lemma tasks_add_then_done_witness :
  Py.strip (Py.join (lit " ") [lit "Write"; lit "essay"]) <> [] /\
  user_tasks
    (tasks_done_command latin1_digit sample_update (request [lit "3"])
       (tasks_add_command sample_update
          (request [lit "Write"; lit "essay"]) sample_world)) !! 7 =
    Some [lit "Read Chapter 3"; lit "Do homework"].
Proof.
  assert (Py.strip (Py.join (lit " ") [lit "Write"; lit "essay"]) <> [])
    as Hne by (vm_compute; discriminate).
  split; [exact Hne|].
  exact (proj1 (proj2 (tasks_add_then_done latin1_digit sample_update
                         (request [lit "Write"; lit "essay"])
                         sample_world Hne))).
Defined.

Lemma sample_run :
  run latin1_digit sample_events
    (initial_world (fun i => i) (clock sample_world)) =
    Some sample_outcome.
Proof. vm_compute. reflexivity. Defined.

Lemma sample_run_pending :
  run latin1_digit (take 3 sample_events)
    (initial_world (fun i => i) (clock sample_world)) =
    Some sample_pending.
Proof. vm_compute. reflexivity. Defined.

(** The seven events of the conversation send seven messages. *)
Lemma run_messages_witness :
  exists messages,
    sent sample_outcome =
      sent (initial_world (fun i => i) (clock sample_world)) ++ messages /\
    length messages = length sample_events.
Proof.
  exact (run_messages latin1_digit sample_events _ _ sample_run).
Defined.

(** A listing in the sample world. *)
Lemma step_separate_data_witness :
  user_tasks (tasks_list_command sample_update (request []) sample_world) =
    user_tasks sample_world /\
  job_queue (tasks_list_command sample_update (request []) sample_world) =
    job_queue sample_world.
Proof.
  destruct (step_separate_data latin1_digit
              (OnTasksList sample_update (request [])) sample_world
              (tasks_list_command sample_update (request []) sample_world)
              eq_refl) as [Ht Hj].
  split; [exact (Ht eq_refl) | exact (Hj eq_refl)].
Defined.

(** No user before the conversation, the user 7 after it. *)
Lemma run_keeps_users_witness :
  dom (user_tasks (initial_world (fun i => i) (clock sample_world))) ⊆
    dom (user_tasks sample_outcome).
Proof.
  exact (run_keeps_users latin1_digit sample_events _ _ sample_run).
Defined.

(** The task left after the conversation. *)
Lemma run_tasks_trimmed_witness :
  Forall trimmed [lit "Do homework"].
Proof.
  exact (run_tasks_trimmed latin1_digit (fun i => i) (clock sample_world)
           sample_events sample_outcome 7 [lit "Do homework"] sample_run
           eq_refl).
Defined.

(** The timer of [/pomodoro 5], waiting after the first three events of
    the conversation, can run. *)
Lemma run_jobs_can_run_witness :
  exists (label : pystr) (w' : World),
    job_data (study_job 42 5) !! lit "type" = Some label /\
    fire 0 sample_pending = Some w' /\
    job_queue w' = delete 0%nat (job_queue sample_pending) /\
    user_tasks w' = user_tasks sample_pending /\
    sent w' = sent sample_pending ++
      [{| msg_chat_id := job_chat_id (study_job 42 5);
          msg_text :=
            lit "**DING DING!** Your " ++ label ++
            lit " timer is finished! Time for a well-deserved break or move on to the next task.";
          msg_parse_mode := Some (lit "Markdown") |}].
Proof.
  exact (proj2 (run_jobs_can_run latin1_digit (fun i => i)
                  (clock sample_world) (take 3 sample_events)
                  sample_pending sample_run_pending)
           0%nat (study_job 42 5) eq_refl).
Defined.

(** [/pomodoro 5000000000] on 3 November 2026. *)
Lemma pomodoro_past_calendar_witness :
  exists w',
    step latin1_digit
      (OnPomodoro sample_update (request [lit "5000000000"]))
      sample_world = Some w' /\
    user_tasks w' = user_tasks sample_world /\
    job_queue w' = job_queue sample_world /\
    sent w' = sent sample_world ++
      [{| msg_chat_id := effective_chat_id sample_update;
          msg_text :=
            lit "Oops! Something went wrong. Check the console for details or try again.";
          msg_parse_mode := None |}].
Proof.
  apply (pomodoro_past_calendar latin1_digit sample_update
           (request [lit "5000000000"]) sample_world 5000000000);
    [reflexivity | vm_compute; discriminate | reflexivity].
Defined.

(** ** Adding the words of a message *)

Lemma join_words_not_nil (sep : pystr) (words : list pystr) :
  Forall Py.word words -> words <> [] -> Py.join sep words <> [].
Proof.
  destruct 1 as [|w ws [Hne _] _]; [done|]. intros _.
  destruct w; [done|]. by destruct ws.
Qed.

(** X18. With at least one word after the command, the words being as the
    transport splits them, [tasks_add_command] never refuses: the task
    added is the words joined by single spaces, with nothing trimmed
    away. *)
Theorem tasks_add_words (update : Update) (context : Context) (w : World) :
  Forall Py.word (args context) ->
  args context <> [] ->
  let user_id := effective_user_id update in
  let old := default [] (user_tasks w !! user_id) in
  tasks_add_command update context w =
    reply_text update
      (task_added_text (Py.join (lit " ") (args context))
         (Z.of_nat (length old) + 1))
      (Some (lit "Markdown"))
      (set_user_tasks
         (<[user_id := old ++ [Py.join (lit " ") (args context)]]>
            (user_tasks w)) w).
Proof.
  intros Hwords Hne user_id old.
  pose proof (PyFacts.strip_join_words (args context) Hwords) as Hstrip.
  pose proof (join_words_not_nil (lit " ") (args context) Hwords Hne) as Hj.
  rewrite <- Hstrip in Hj.
  rewrite (tasks_add_accepted update context w Hj).
  by rewrite Hstrip.
Qed.

(** [/tasks_add Write essay] for a user without a list. *)
Lemma tasks_add_words_witness :
  user_tasks
    (tasks_add_command {| effective_user_id := 8; effective_chat_id := 8 |}
       (request [lit "Write"; lit "essay"]) sample_world) !! 8 =
    Some [lit "Write essay"].
Proof.
  rewrite (tasks_add_words {| effective_user_id := 8; effective_chat_id := 8 |}
             (request [lit "Write"; lit "essay"]) sample_world).
  - reflexivity.
  - repeat constructor; discriminate.
  - discriminate.
Defined.
